(** * fake-store-cli: a shallow embedding of [index.js]

    [index.js] is a command-line client of the FakeStore REST API.  It has two
    functions: [apiRequest], which builds one HTTP call and reads the reply,
    and [main], which interprets [process.argv] and dispatches on the command.

    The embedding follows the source function by function.
    - Strings are byte strings, the UTF-8 form in which the operating system
      hands the arguments to Node; every character the program looks at
      ('/', digits, signs, the ASCII command names) is a single byte, and the
      few non-ASCII characters the JavaScript primitives treat specially are
      recognised by their UTF-8 encodings.
    - Numbers are kept as the decimal value the text denotes (the double is the
      rounding of that value); the tests the program makes on numbers
      ([isNaN], truthiness) are exact on that representation.
    - The network and the JSON serializer belong to the runtime: how [fetch]
      answers a call (the reply holds what reading its body as text and as
      JSON gives) and what [JSON.stringify] returns are the fields of a
      [Runtime] record that every program reads, so that every theorem holds
      for every remote service.
    - Console output and network calls are recorded, in order, in a trace;
      an early [return] of the source is the end of its branch. *)

From Stdlib Require Import String Ascii ZArith NArith List Lia.
From Stdlib Require Import DecimalString DecimalN DecimalPos.
From stdpp Require Import base gmap strings.
Import ListNotations.
Open Scope string_scope.

(** ** JavaScript strings *)

Module JSString.

(** The double quote and the line feed, which a literal cannot hold. *)
Definition dq : string := String (ascii_of_N 34) "".
Definition nl : string := String (ascii_of_N 10) "".

(** [s.startsWith(p)] *)
Fixpoint startsWith (s p : string) {struct p} : bool :=
  match p with
  | "" => true
  | String a p' =>
      match s with
      | String b s' => Ascii.eqb a b && startsWith s' p'
      | "" => false
      end
  end.

(** [s.split(sep)] for a one-character separator. *)
Fixpoint split (sep : ascii) (s : string) : list string :=
  match s with
  | "" => [""]
  | String c r =>
      if Ascii.eqb c sep then "" :: split sep r
      else match split sep r with
           | seg :: segs => String c seg :: segs
           | [] => [String c ""]
           end
  end.

(** [hay.indexOf(needle)]: the first position, or -1. *)
Definition indexOf (hay needle : string) : Z :=
  match String.index 0 needle hay with
  | Some i => Z.of_nat i
  | None => (-1)%Z
  end.

(** The decimal text of a natural number, as a template literal prints it. *)
Definition of_N (n : N) : string := NilZero.string_of_uint (N.to_uint n).
Definition of_nat (n : nat) : string := of_N (N.of_nat n).

(** A template literal prints a missing value as the word undefined. *)
Definition interpolate (o : option string) : string :=
  match o with
  | Some s => s
  | None => "undefined"
  end.

(** *** White space, as [parseInt] and [parseFloat] skip it

    TAB, LF, VT, FF, CR and SP are single bytes; the other white-space and
    line-terminator characters of ECMAScript are U+00A0, U+1680,
    U+2000 to U+200A, U+2028, U+2029, U+202F, U+205F, U+3000 and U+FEFF. *)
Definition is_ws1 (c1 : ascii) : bool :=
  let a := N_of_ascii c1 in
  ((9 <=? a) && (a <=? 13) || (a =? 32))%N.

Definition is_ws2 (c1 c2 : ascii) : bool :=
  ((N_of_ascii c1 =? 0xC2) && (N_of_ascii c2 =? 0xA0))%N.

Definition is_ws3 (c1 c2 c3 : ascii) : bool :=
  let a := N_of_ascii c1 in
  let b := N_of_ascii c2 in
  let c := N_of_ascii c3 in
  ((a =? 0xE1) && (b =? 0x9A) && (c =? 0x80)
   || (a =? 0xE2) && (b =? 0x80)
      && ((0x80 <=? c) && (c <=? 0x8A) || (c =? 0xA8) || (c =? 0xA9) || (c =? 0xAF))
   || (a =? 0xE2) && (b =? 0x81) && (c =? 0x9F)
   || (a =? 0xE3) && (b =? 0x80) && (c =? 0x80)
   || (a =? 0xEF) && (b =? 0xBB) && (c =? 0xBF))%N.

Fixpoint trimStart (s : string) : string :=
  match s with
  | String c1 s1 =>
      if is_ws1 c1 then trimStart s1
      else match s1 with
           | String c2 s2 =>
               if is_ws2 c1 c2 then trimStart s2
               else match s2 with
                    | String c3 s3 => if is_ws3 c1 c2 c3 then trimStart s3 else s
                    | "" => s
                    end
           | "" => s
           end
  | "" => s
  end.

(** *** [s.toUpperCase()]

    ASCII letters are mapped to their capitals.  The characters whose
    upper-case form consists of ASCII letters only are mapped as Unicode
    says: U+00DF to SS, U+0131 to I, U+017F to S, and the ligatures U+FB00 to
    U+FB06 to FF, FI, FL, FFI, FFL, ST and ST.  Every other non-ASCII
    character is left as it is: its upper-case form holds a non-ASCII
    character as well, and the program only compares the result with the
    ASCII names GET, POST and DELETE. *)
Definition upper_ascii (c : ascii) : ascii :=
  let a := N_of_ascii c in
  if ((97 <=? a) && (a <=? 122))%N then ascii_of_N (a - 32) else c.

Definition upper_special2 (c1 c2 : ascii) : option string :=
  let a := N_of_ascii c1 in
  let b := N_of_ascii c2 in
  if ((a =? 0xC3) && (b =? 0x9F))%N then Some "SS"
  else if ((a =? 0xC4) && (b =? 0xB1))%N then Some "I"
  else if ((a =? 0xC5) && (b =? 0xBF))%N then Some "S"
  else None.

Definition upper_special3 (c1 c2 c3 : ascii) : option string :=
  let a := N_of_ascii c1 in
  let b := N_of_ascii c2 in
  let c := N_of_ascii c3 in
  if ((a =? 0xEF) && (b =? 0xAC))%N then
    if (c =? 0x80)%N then Some "FF"
    else if (c =? 0x81)%N then Some "FI"
    else if (c =? 0x82)%N then Some "FL"
    else if (c =? 0x83)%N then Some "FFI"
    else if (c =? 0x84)%N then Some "FFL"
    else if (c =? 0x85)%N then Some "ST"
    else if (c =? 0x86)%N then Some "ST"
    else None
  else None.

Fixpoint toUpperCase (s : string) : string :=
  match s with
  | String c1 s1 =>
      match s1 with
      | String c2 s2 =>
          match upper_special2 c1 c2 with
          | Some up => up ++ toUpperCase s2
          | None =>
              match s2 with
              | String c3 s3 =>
                  match upper_special3 c1 c2 c3 with
                  | Some up => up ++ toUpperCase s3
                  | None => String (upper_ascii c1) (toUpperCase s1)
                  end
              | "" => String (upper_ascii c1) (toUpperCase s1)
              end
          end
      | "" => String (upper_ascii c1) ""
      end
  | "" => ""
  end.

End JSString.

(** ** JavaScript numbers *)

Module JSNumber.

(** A number is NaN, an infinity, or the rounding to a double of
    [mantissa * 10 ^ exponent], negated when [negative]. *)
Inductive t : Type :=
| NaN
| Infinity (negative : bool)
| Decimal (negative : bool) (mantissa : N) (exponent : Z).

(** [isNaN(x)] *)
Definition isNaN (x : t) : bool :=
  match x with
  | NaN => true
  | _ => false
  end.

(** A decimal value rounds to an infinity from [2^1024 - 2^970] on, and to a
    zero up to [2^-1075]. *)
Definition overflows (mantissa : N) (exponent : Z) : bool :=
  let m := Z.of_N mantissa in
  let limit := (2 ^ 1024 - 2 ^ 970)%Z in
  if (0 <=? exponent)%Z then (limit <=? m * 10 ^ exponent)%Z
  else (limit * 10 ^ (- exponent) <=? m)%Z.

Definition underflows (mantissa : N) (exponent : Z) : bool :=
  let m := Z.of_N mantissa in
  if (0 <=? exponent)%Z then (m =? 0)%Z
  else (m * 2 ^ 1075 <=? 10 ^ (- exponent))%Z.

(** [isFinite(x)] *)
Definition isFinite (x : t) : bool :=
  match x with
  | NaN | Infinity _ => false
  | Decimal _ m e => negb (overflows m e)
  end.

(** [Boolean(x)]: false for NaN and the zeros. *)
Definition truthy (x : t) : bool :=
  match x with
  | NaN => false
  | Infinity _ => true
  | Decimal _ m e => negb (underflows m e)
  end.

(** The value [0..35] of a digit or letter. *)
Definition digit_value (c : ascii) : option N :=
  let a := N_of_ascii c in
  if ((48 <=? a) && (a <=? 57))%N then Some (a - 48)%N
  else if ((97 <=? a) && (a <=? 122))%N then Some (a - 87)%N
  else if ((65 <=? a) && (a <=? 90))%N then Some (a - 55)%N
  else None.

Definition radix_digit (R : N) (c : ascii) : option N :=
  match digit_value c with
  | Some d => if (d <? R)%N then Some d else None
  | None => None
  end.

(** The value of the longest prefix of [s] made of radix-[R] digits, on top
    of the digits read so far; [None] while no digit was read. *)
Fixpoint read_digits (R : N) (acc : option N) (s : string) : option N :=
  match s with
  | String c r =>
      match radix_digit R c with
      | Some d => read_digits R (Some (R * default 0 acc + d)%N) r
      | None => acc
      end
  | "" => acc
  end.

(** The sign that [parseInt] and [parseFloat] read and remove. *)
Definition read_sign (s : string) : bool * string :=
  match s with
  | String "-" r => (true, r)
  | String "+" r => (false, r)
  | _ => (false, s)
  end.

(** The hexadecimal prefix that [parseInt] removes when no radix is given. *)
Definition read_radix (s : string) : N * string :=
  match s with
  | String "0" (String "x" r) => (16%N, r)
  | String "0" (String "X" r) => (16%N, r)
  | _ => (10%N, s)
  end.

(** [parseInt(input)] *)
Definition parseInt (input : string) : t :=
  let '(negative, s) := read_sign (JSString.trimStart input) in
  let '(R, s) := read_radix s in
  match read_digits R None s with
  | Some v => Decimal negative v 0
  | None => NaN
  end.

(** The longest prefix of decimal digits, and what follows it. *)
Fixpoint span_digits (s : string) : string * string :=
  match s with
  | String c r =>
      match radix_digit 10 c with
      | Some _ => let '(ds, rest) := span_digits r in (String c ds, rest)
      | None => ("", s)
      end
  | "" => ("", "")
  end.

Definition digits_value (ds : string) : N := default 0%N (read_digits 10 None ds).

(** The exponent part [e], [e+] or [e-] followed by digits; 0 without one. *)
Definition read_exponent (s : string) : Z :=
  let after_indicator :=
    match s with
    | String "e" r => Some r
    | String "E" r => Some r
    | _ => None
    end in
  match after_indicator with
  | Some r =>
      let '(negative, r) := read_sign r in
      match read_digits 10 None r with
      | Some v => if negative then (- Z.of_N v)%Z else Z.of_N v
      | None => 0%Z
      end
  | None => 0%Z
  end.

(** [parseFloat(input)]: the longest prefix of the trimmed text that is a
    decimal literal (Infinity, digits with an optional fraction and
    exponent, or a fraction starting with the point), NaN when there is
    none. *)
Definition parseFloat (input : string) : t :=
  let '(negative, s) := read_sign (JSString.trimStart input) in
  if JSString.startsWith s "Infinity" then Infinity negative
  else
    let '(int_part, s) := span_digits s in
    let '(frac_part, s) :=
      match s with
      | String "." r => span_digits r
      | _ => ("", s)
      end in
    if (String.length int_part + String.length frac_part =? 0)%nat then NaN
    else Decimal negative (digits_value (int_part ++ frac_part))
                 (read_exponent s - Z.of_nat (String.length frac_part)).

End JSNumber.

(** ** JavaScript values *)

(** The objects whose properties a parsed JSON value inherits. *)
Inductive Prototype : Type :=
| Object_prototype
| Array_prototype.

(** The data the program handles: what [JSON.parse] builds and the payload
    that [main] assembles.  An object lists its own properties in the order
    of [Object.keys]. *)
#[warnings="-register-all"]
Inductive JSValue : Type :=
| JNull
| JBoolean (b : bool)
| JNumber (n : JSNumber.t)
| JString (s : string)
| JArray (elements : list JSValue)
| JObject (properties : list (string * JSValue)).

(** What the console is given to print: a value, a member that a property
    read found on a built-in prototype, or undefined. *)
Inductive Shown : Type :=
| Value (v : JSValue)
| Inherited (holder : Prototype) (key : string)
| Undefined.

(** The text that opens a console line. *)
Definition label (s : string) : Shown := Value (JString s).

(** [Boolean(v)] *)
Definition truthy (v : JSValue) : bool :=
  match v with
  | JNull => false
  | JBoolean b => b
  | JNumber n => JSNumber.truthy n
  | JString s => negb (s =? "")
  | JArray _ | JObject _ => true
  end.

(** [typeof v] *)
Definition typeof (v : JSValue) : string :=
  match v with
  | JNull => "object"
  | JBoolean _ => "boolean"
  | JNumber _ => "number"
  | JString _ => "string"
  | JArray _ | JObject _ => "object"
  end.

(** The string-keyed properties of [Object.prototype] and [Array.prototype]
    (ECMAScript 2023, with the legacy accessors of its annex B). *)
Definition Object_prototype_keys : list string :=
  [ "constructor"; "hasOwnProperty"; "isPrototypeOf"; "propertyIsEnumerable";
    "toLocaleString"; "toString"; "valueOf"; "__proto__";
    "__defineGetter__"; "__defineSetter__"; "__lookupGetter__"; "__lookupSetter__" ].

Definition Array_prototype_keys : list string :=
  [ "length"; "constructor"; "at"; "concat"; "copyWithin"; "entries"; "every";
    "fill"; "filter"; "find"; "findIndex"; "findLast"; "findLastIndex"; "flat";
    "flatMap"; "forEach"; "includes"; "indexOf"; "join"; "keys"; "lastIndexOf";
    "map"; "pop"; "push"; "reduce"; "reduceRight"; "reverse"; "shift"; "slice";
    "some"; "sort"; "splice"; "toLocaleString"; "toReversed"; "toSorted";
    "toSpliced"; "toString"; "unshift"; "values"; "with" ].

Definition has_key (keys : list string) (key : string) : bool :=
  existsb (String.eqb key) keys.

(** The own property [key] of an object or array, when it has one. *)
Fixpoint assoc (key : string) (properties : list (string * JSValue)) : option JSValue :=
  match properties with
  | (k, v) :: rest => if key =? k then Some v else assoc key rest
  | [] => None
  end.

(** An array's element at the index written, in canonical decimal, as [key]. *)
Definition array_index (key : string) (elements : list JSValue) : option JSValue :=
  match find (fun i => JSString.of_nat i =? key) (seq 0 (length elements)) with
  | Some i => nth_error elements i
  | None => None
  end.

Definition own_property (key : string) (v : JSValue) : option JSValue :=
  match v with
  | JObject properties => assoc key properties
  | JArray elements =>
      if key =? "length" then
        Some (JNumber (JSNumber.Decimal false (N.of_nat (length elements)) 0))
      else array_index key elements
  | _ => None
  end.

(** The first object of the prototype chain of [v] that holds [key]. *)
Definition inherited_from (key : string) (v : JSValue) : option Prototype :=
  match v with
  | JObject _ =>
      if has_key Object_prototype_keys key then Some Object_prototype else None
  | JArray _ =>
      if has_key Array_prototype_keys key then Some Array_prototype
      else if has_key Object_prototype_keys key then Some Object_prototype
      else None
  | _ => None
  end.

(** [key in v], for an object or array [v]: own and inherited properties. *)
Definition js_in (key : string) (v : JSValue) : bool :=
  match own_property key v, inherited_from key v with
  | None, None => false
  | _, _ => true
  end.

(** [v[key]], for an object or array [v]. *)
Definition js_get (v : JSValue) (key : string) : Shown :=
  match own_property key v, inherited_from key v with
  | Some x, _ => Value x
  | None, Some holder => Inherited holder key
  | None, None => Undefined
  end.

(** [Object.keys(v)] *)
Definition Object_keys (v : JSValue) : JSValue :=
  match v with
  | JObject properties => JArray (map (fun p => JString (fst p)) properties)
  | JArray elements =>
      JArray (map (fun i => JString (JSString.of_nat i)) (seq 0 (length elements)))
  | _ => JArray []
  end.

(** ** The runtime: network calls and console output *)

(** The [options] object handed to [fetch], and the call as a whole. *)
Record FetchOptions : Type := {
  method : string;
  headers : gmap string string;
  body : option string
}.

Record HttpCall : Type := {
  url : string;
  options : FetchOptions
}.

(** How an awaited operation ends: with a value, or with a thrown error, of
    which the program only ever reads the message. *)
Inductive Completion (A : Type) : Type :=
| Normal (value : A)
| Throw (message : string).
Arguments Normal {A} value.
Arguments Throw {A} message.

(** The reply to a call: its status line, what [headers.get("content-type")]
    returns ([None] for null), and how reading the body with [text()] and with
    [json()] ends. *)
Record Response : Type := {
  status : N;
  statusText : string;
  content_type : option string;
  text : Completion string;
  json : Completion JSValue
}.

(** [response.ok]: the status is in the range 200 to 299. *)
Definition ok (response : Response) : bool :=
  ((200 <=? status response) && (status response <=? 299))%N.

(** What the program cannot decide: how [fetch] answers a call (a reply, or a
    transport failure), and the text [JSON.stringify] gives for a value. *)
Record Runtime : Type := {
  fetch : HttpCall -> Completion Response;
  JSON_stringify : JSValue -> string
}.

(** What a run does that can be observed, in order. *)
Inductive Event : Type :=
| ConsoleLog (items : list Shown)
| ConsoleError (items : list Shown)
| NetworkCall (call : HttpCall).

(** A program reads the runtime, ends normally or by throwing, and leaves a
    trace. *)
Definition Prog (A : Type) : Type := Runtime -> Completion A * list Event.

Definition ret {A} (a : A) : Prog A := fun _ => (Normal a, []).

Definition throw {A} (message : string) : Prog A := fun _ => (Throw message, []).

Definition bind {A B} (m : Prog A) (k : A -> Prog B) : Prog B :=
  fun rt =>
    match m rt with
    | (Normal a, t1) => let '(r, t2) := k a rt in (r, (t1 ++ t2)%list)
    | (Throw e, t1) => (Throw e, t1)
    end.

(** [try { m } catch (error) { handler(error.message) }] *)
Definition try_catch {A} (m : Prog A) (handler : string -> Prog A) : Prog A :=
  fun rt =>
    match m rt with
    | (Normal a, t1) => (Normal a, t1)
    | (Throw e, t1) => let '(r, t2) := handler e rt in (r, (t1 ++ t2)%list)
    end.

(** [await p], for an operation of the runtime that has ended. *)
Definition await {A} (c : Completion A) : Prog A := fun _ => (c, []).

Definition console_log (items : list Shown) : Prog unit :=
  fun _ => (Normal tt, [ConsoleLog items]).

Definition console_error (items : list Shown) : Prog unit :=
  fun _ => (Normal tt, [ConsoleError items]).

(** [await fetch(url, options)] *)
Definition do_fetch (url : string) (options : FetchOptions) : Prog Response :=
  fun rt =>
    let call := {| url := url; options := options |} in
    (fetch rt call, [NetworkCall call]).

Definition stringify (v : JSValue) : Prog string :=
  fun rt => (Normal (JSON_stringify rt v), []).

Notation "x <- m ;; k" := (bind m (fun x => k))
  (at level 100, m at next level, right associativity).
Notation "m ;;; k" := (bind m (fun _ => k))
  (at level 100, right associativity).

(** The network calls of a trace. *)
Definition calls (trace : list Event) : list HttpCall :=
  flat_map (fun e => match e with NetworkCall c => [c] | _ => [] end) trace.

(** ** [apiRequest] *)

Definition API_BASE_URL : string := "https://fakestoreapi.com".

(** The [options] of a call: the method and no header, to which the content
    type and the serialized body are added when [body] is truthy and the
    method is POST or PUT. *)
Definition build_options (method : string) (body : JSValue) : Prog FetchOptions :=
  let options := {| method := method; headers := ∅; body := None |} in
  if truthy body && ((method =? "POST") || (method =? "PUT")) then
    serialized <- stringify body ;;
    ret {| method := method;
           headers := <["Content-Type" := "application/json"]> (headers options);
           body := Some serialized |}
  else ret options.

(** [contentType && contentType.indexOf("application/json") !== -1], for the
    string or null that [headers.get] returned. *)
Definition names_json (contentType : option string) : bool :=
  match contentType with
  | Some ct =>
      negb (ct =? "") && negb (JSString.indexOf ct "application/json" =? -1)%Z
  | None => false
  end.

Definition apiRequest (endpoint : string) (method : string) (body : JSValue)
  : Prog JSValue :=
  let url := API_BASE_URL ++ endpoint in
  options <- build_options method body ;;
  try_catch
    (response <- do_fetch url options ;;
     if negb (ok response) then
       errorBody <- await (text response) ;;
       throw ("Error " ++ JSString.of_N (status response) ++ ": "
              ++ statusText response ++ ". Body: " ++ errorBody)
     else
       let contentType := content_type response in
       if names_json contentType then await (json response)
       else ret (JObject [("message",
                   JString ("Operation successful. Status: "
                            ++ JSString.of_N (status response)))]))
    (fun message =>
       console_error [label ("API Request Failed for " ++ method ++ " " ++ url ++ ":");
                      Value (JString message)] ;;;
       throw message).

(** ** [main] *)

(** The help text that [main] prints when the command or the path is missing. *)
Definition usage : string :=
  let dq := JSString.dq in
  String.concat JSString.nl
    [
      "";
      "Uso: npm run start <COMMAND> <RESOURCE_PATH> [ARGUMENTS... | FIELD_TO_EXTRACT]";
      "";
      "Comandos disponibles:";
      "  GET products                                  - Obtiene todos los productos.";
      "  GET products/<productId>                      - Obtiene un producto específico por su ID.";
      "  GET products/<productId> <field>              - Obtiene un campo específico (ej: image, title, price) de un producto.";
      "  POST products <title> <price> <category> [description] [image] - Crea un nuevo producto.";
      "                                      (description e image son opcionales y se usarán valores por defecto si no se proveen)";
      "  DELETE products/<productId>                   - Elimina un producto por su ID.";
      "";
      "Ejemplos:";
      "  npm run start GET products";
      "  npm run start GET products/15";
      "  npm run start GET products/20 image";
      "  npm run start GET products/5 title";
      ("  npm run start POST products " ++ dq ++ "Amazing T-Shirt" ++ dq ++ " 19.99 " ++ dq ++ "men's clothing" ++ dq ++ " " ++ dq ++ "A great t-shirt" ++ dq ++ " " ++ dq ++ "https://i.pravatar.cc" ++ dq);
      ("  npm run start POST products " ++ dq ++ "Cool Gadget" ++ dq ++ " 299.99 " ++ dq ++ "electronics" ++ dq);
      "  npm run start DELETE products/7";
      "    "
    ].

(** [path.split('/')[1]] *)
Definition product_id (path : string) : option string :=
  nth_error (JSString.split "/" path) 1.

(** [!command], for an argument that may be missing. *)
Definition missing (argument : option string) : bool :=
  match argument with
  | Some s => s =? ""
  | None => true
  end.

(** The text of an argument that is not missing. *)
Definition present (argument : option string) : string :=
  match argument with
  | Some s => s
  | None => ""
  end.

(** [argument || fallback], for an argument that may be missing. *)
Definition or_default (argument : option string) (fallback : string) : string :=
  if missing argument then fallback else present argument.

(** [!productId || isNaN(parseInt(productId))] *)
Definition invalid_id (productId : option string) : bool :=
  missing productId
  || JSNumber.isNaN (JSNumber.parseInt (JSString.interpolate productId)).

Definition newProduct (title : string) (price : JSNumber.t) (category : string)
    (description image : option string) : JSValue :=
  JObject
    [ ("title", JString title);
      ("price", JNumber price);
      ("category", JString category);
      ("description", JString (or_default description "Default product description"));
      ("image", JString (or_default image "https://calculo-intereses.onrender.com")) ].

(** The GET case of the switch. *)
Definition main_GET (path endpoint : string) (args : list string) : Prog unit :=
  if (path =? "products") && (length args =? 0)%nat then
    result <- apiRequest endpoint "GET" JNull ;;
    console_log [label "Productos obtenidos:"; Value result]
  else if JSString.startsWith path "products/" then
    productData <- apiRequest endpoint "GET" JNull ;;
    match args with
    | fieldToExtract :: _ =>
        let productId := product_id path in
        if truthy productData && (typeof productData =? "object")
           && js_in fieldToExtract productData then
          console_log
            [label ("Campo '" ++ fieldToExtract ++ "' del producto "
                      ++ JSString.interpolate productId ++ ":");
             js_get productData fieldToExtract]
        else if truthy productData && (typeof productData =? "object") then
          console_error
            [label ("Error: El campo '" ++ fieldToExtract
                      ++ "' no existe en el producto "
                      ++ JSString.interpolate productId ++ ".")] ;;;
          console_log [label "Campos disponibles:"; Value (Object_keys productData)]
        else
          console_log
            [label ("Respuesta de la API para " ++ path
                      ++ " (posiblemente producto no encontrado):");
             Value productData]
    | [] => console_log [label "Producto obtenido:"; Value productData]
    end
  else
    console_error
      [label ("Ruta no válida para GET: '" ++ path
                ++ "'. Use 'products', 'products/<id>' o 'products/<id> <field>'.")].

(** The POST case of the switch. *)
Definition main_POST (path endpoint : string) (args : list string) : Prog unit :=
  if path =? "products" then
    if (length args <? 3)%nat then
      console_error
        [label "Para POST products, se requieren al menos: <title> <price> <category>."] ;;;
      console_error
        [label ("Ejemplo: npm run start POST products " ++ JSString.dq ++ "Mi Producto"
                  ++ JSString.dq ++ " 10.99 " ++ JSString.dq ++ "electronica"
                  ++ JSString.dq)]
    else
      let title := present (nth_error args 0) in
      let priceStr := present (nth_error args 1) in
      let category := present (nth_error args 2) in
      let description := nth_error args 3 in
      let image := nth_error args 4 in
      let price := JSNumber.parseFloat priceStr in
      if JSNumber.isNaN price then
        console_error [label "El precio debe ser un número válido."]
      else
        result <- apiRequest endpoint "POST"
                    (newProduct title price category description image) ;;
        console_log [label "Producto creado:"; Value result]
  else
    console_error
      [label ("Ruta no válida para POST: " ++ path ++ ". Use 'products'.")].

(** The DELETE case of the switch. *)
Definition main_DELETE (path endpoint : string) : Prog unit :=
  if JSString.startsWith path "products/" then
    let productId := product_id path in
    if invalid_id productId then
      console_error
        [label "Para DELETE products, se requiere un ID numérico válido: products/<productId>"]
    else
      result <- apiRequest endpoint "DELETE" JNull ;;
      console_log
        [label ("Producto con ID " ++ JSString.interpolate productId
                  ++ " (supuestamente) eliminado:");
         Value result]
  else
    console_error
      [label ("Ruta no válida para DELETE: " ++ path ++ ". Use 'products/<id>'.")].

(** The body of [main] once the command and the path are known to be there. *)
Definition dispatch (command path : string) (args : list string) : Prog unit :=
  let method := JSString.toUpperCase command in
  let endpoint := "/" ++ path in
  try_catch
    (if method =? "GET" then main_GET path endpoint args
     else if method =? "POST" then main_POST path endpoint args
     else if method =? "DELETE" then main_DELETE path endpoint
     else
       console_error
         [label ("Comando no reconocido: " ++ command
                   ++ ". Comandos válidos: GET, POST, DELETE.")])
    (fun message =>
       console_error [label "Ocurrió un error en la operación principal:";
                      Value (JString message)]).

(** [main], on the value of [process.argv]. *)
Definition main (argv : list string) : Prog unit :=
  let command := nth_error argv 2 in
  let path := nth_error argv 3 in
  let args := skipn 4 argv in
  if missing command || missing path then console_log [label usage]
  else dispatch (present command) (present path) args.

(** The trace of a run, and the number of network calls in it. *)
Definition run (rt : Runtime) (argv : list string) : list Event :=
  snd (main argv rt).

Definition network_calls (rt : Runtime) (argv : list string) : nat :=
  length (calls (run rt argv)).

(** * Definitions for the statements

    The equations below restate, as plain functions, what the programs
    above compute; the lemmas of the next part prove them equal to the
    programs.  The sample runtimes serve the examples. *)

(** The options of the call, as [build_options] computes them. *)
Definition request_options (rt : Runtime) (method : string) (payload : JSValue)
  : FetchOptions :=
  if truthy payload && ((method =? "POST") || (method =? "PUT")) then
    {| method := method;
       headers := {["Content-Type" := "application/json"]};
       body := Some (JSON_stringify rt payload) |}
  else {| method := method; headers := ∅; body := None |}.

Definition request (rt : Runtime) (endpoint method : string) (payload : JSValue)
  : HttpCall :=
  {| url := API_BASE_URL ++ endpoint; options := request_options rt method payload |}.

(** The object that stands for a successful reply without JSON. *)
Definition status_message (response : Response) : JSValue :=
  JObject [("message",
            JString ("Operation successful. Status: " ++ JSString.of_N (status response)))].

(** How [apiRequest] ends, from how [fetch] ended. *)
Definition read_reply (outcome : Completion Response) : Completion JSValue :=
  match outcome with
  | Normal response =>
      if ok response then
        if names_json (content_type response) then json response
        else Normal (status_message response)
      else
        match text response with
        | Normal errorBody =>
            Throw ("Error " ++ JSString.of_N (status response) ++ ": "
                   ++ statusText response ++ ". Body: " ++ errorBody)
        | Throw message => Throw message
        end
  | Throw message => Throw message
  end.

Definition sample_product : JSValue :=
  JObject [ ("id", JNumber (JSNumber.Decimal false 1 0));
            ("title", JString "Backpack");
            ("price", JNumber (JSNumber.Decimal false 10995 (-2))) ].

(** A service that answers every call with the sample product, as JSON. *)
Definition json_runtime : Runtime :=
  {| fetch := fun _ =>
       Normal {| status := 200;
                 statusText := "OK";
                 content_type := Some "application/json; charset=utf-8";
                 text := Normal "{...}";
                 json := Normal sample_product |};
     JSON_stringify := fun _ => "{...}" |}.

(** A service that answers every call with 204 and no body. *)
Definition no_content_response : Response :=
  {| status := 204;
     statusText := "No Content";
     content_type := None;
     text := Normal "";
     json := Throw "Unexpected end of JSON input" |}.

Definition no_content_runtime : Runtime :=
  {| fetch := fun _ => Normal no_content_response;
     JSON_stringify := fun _ => "{...}" |}.

(** The two kinds of result, and when a value is the result of that kind for
    a reply: the parsed body when the content type names JSON, the status
    message when it does not. *)
Inductive ApiResultKind : Type :=
| JsonValue
| StatusMessage.

Definition produced_as (response : Response) (kind : ApiResultKind) (v : JSValue)
  : Prop :=
  match kind with
  | JsonValue =>
      names_json (content_type response) = true /\ json response = Normal v
  | StatusMessage =>
      names_json (content_type response) = false
      /\ v = JObject [("message",
                       JString ("Operation successful. Status: "
                                ++ JSString.of_N (status response)))]
  end.

(** The trace of the runs that only print the help text. *)
Definition usage_run : Completion unit * list Event :=
  (Normal tt, [ConsoleLog [label usage]]).

(** The handler of the outer try of [main]. *)
Definition report_failure (message : string) : Prog unit :=
  console_error [label "Ocurrió un error en la operación principal:";
                 Value (JString message)].

(** A call without header and body. *)
Definition plain_call (verb path : string) : HttpCall :=
  {| url := "https://fakestoreapi.com" ++ "/" ++ path;
     options := {| method := verb; headers := ∅; body := None |} |}.

(** The text up to the first slash. *)
Fixpoint before_slash (s : string) : string :=
  match s with
  | String c r => if Ascii.eqb c "/" then "" else String c (before_slash r)
  | "" => ""
  end.








(** A service that answers every call with 404 and a plain text body. *)
Definition not_found_response : Response :=
  {| status := 404;
     statusText := "Not Found";
     content_type := Some "text/plain";
     text := Normal "no such product";
     json := Throw "Unexpected token" |}.

Definition not_found_runtime : Runtime :=
  {| fetch := fun _ => Normal not_found_response;
     JSON_stringify := fun _ => "{...}" |}.


(** A decimal integer written in full: an optional sign, then digits and
    nothing else. *)
Fixpoint all_digits (s : string) : bool :=
  match s with
  | String c r =>
      match JSNumber.radix_digit 10 c with
      | Some _ => all_digits r
      | None => false
      end
  | "" => true
  end.

Definition decimal_integer (s : string) : bool :=
  let digits := snd (JSNumber.read_sign s) in
  negb (digits =? "") && all_digits digits.


(** * Properties *)

(** ** Examples of the primitives *)

Example parseFloat_price : JSNumber.parseFloat "9.99" = JSNumber.Decimal false 999 (-2).
Proof. reflexivity. Qed.

Example parseFloat_abc : JSNumber.parseFloat "abc" = JSNumber.NaN.
Proof. reflexivity. Qed.

Example parseInt_seven : JSNumber.parseInt "7" = JSNumber.Decimal false 7 0.
Proof. reflexivity. Qed.

Example parseInt_word : JSNumber.parseInt "seven" = JSNumber.NaN.
Proof. reflexivity. Qed.

Example parseFloat_forms :
  JSNumber.parseFloat "  1e3x" = JSNumber.Decimal false 1 3
  /\ JSNumber.parseFloat "-.5e-2" = JSNumber.Decimal true 5 (-3)
  /\ JSNumber.parseFloat "5." = JSNumber.Decimal false 5 0
  /\ JSNumber.parseFloat ".e3" = JSNumber.NaN
  /\ JSNumber.parseFloat "-Infinity" = JSNumber.Infinity true
  /\ JSNumber.parseInt " 0x1F/2" = JSNumber.Decimal false 31 0
  /\ JSNumber.parseInt "-12abc" = JSNumber.Decimal true 12 0
  /\ JSNumber.parseInt "0x" = JSNumber.NaN.
Proof. repeat split; reflexivity. Qed.

Example toUpperCase_forms :
  JSString.toUpperCase "get" = "GET"
  /\ JSString.toUpperCase "Delete" = "DELETE"
  /\ JSString.toUpperCase "poſt" = "POST"
  /\ JSString.toUpperCase "poﬆ" = "POST"
  /\ JSString.toUpperCase "g-e.t7" = "G-E.T7".
Proof. repeat split; reflexivity. Qed.

Example split_forms :
  JSString.split "/" "products/7" = ["products"; "7"]
  /\ JSString.split "/" "products/" = ["products"; ""]
  /\ JSString.split "/" "products" = ["products"]
  /\ JSString.split "/" "" = [""]
  /\ JSString.split "/" "products//7/x" = ["products"; ""; "7"; "x"].
Proof. repeat split; reflexivity. Qed.

(** ** What [apiRequest] does, in one equation *)

Lemma build_options_run rt method payload :
  build_options method payload rt = (Normal (request_options rt method payload), []).
Proof.
  unfold build_options, request_options.
  destruct (truthy payload && ((method =? "POST") || (method =? "PUT"))); reflexivity.
Qed.

Lemma apiRequest_run rt endpoint method payload :
  apiRequest endpoint method payload rt =
    let call := request rt endpoint method payload in
    match read_reply (fetch rt call) with
    | Normal v => (Normal v, [NetworkCall call])
    | Throw message =>
        (Throw message,
         [NetworkCall call;
          ConsoleError [label ("API Request Failed for " ++ method ++ " "
                                 ++ API_BASE_URL ++ endpoint ++ ":");
                        Value (JString message)]])
    end.
Proof.
  unfold apiRequest, bind at 1. rewrite build_options_run.
  unfold try_catch, bind, do_fetch, request, read_reply; cbn [fst snd].
  destruct (fetch rt _) as [response|message]; [|reflexivity].
  destruct (ok response); cbn [negb].
  - destruct (names_json (content_type response)).
    + unfold await. destruct (json response); reflexivity.
    + reflexivity.
  - unfold await. destruct (text response); reflexivity.
Qed.

Lemma apiRequest_calls rt endpoint method payload :
  calls (snd (apiRequest endpoint method payload rt))
  = [request rt endpoint method payload].
Proof.
  rewrite apiRequest_run; cbv zeta.
  destruct (read_reply _); reflexivity.
Qed.

Lemma apiRequest_result rt endpoint method payload :
  fst (apiRequest endpoint method payload rt)
  = read_reply (fetch rt (request rt endpoint method payload)).
Proof.
  rewrite apiRequest_run; cbv zeta.
  destruct (read_reply _); reflexivity.
Qed.


(** ** The HTTP call that [apiRequest] builds *)

Lemma attaches_body_iff (verb : string) (payload : JSValue) :
  truthy payload && ((verb =? "POST") || (verb =? "PUT")) = true
  <-> truthy payload = true /\ (verb = "POST" \/ verb = "PUT").
Proof. rewrite andb_true_iff, orb_true_iff, !String.eqb_eq. reflexivity. Qed.

Lemma request_options_with_body rt verb payload :
  truthy payload = true /\ (verb = "POST" \/ verb = "PUT") ->
  request_options rt verb payload
  = {| method := verb;
       headers := {["Content-Type" := "application/json"]};
       body := Some (JSON_stringify rt payload) |}.
Proof.
  intros H. apply attaches_body_iff in H.
  unfold request_options. rewrite H. reflexivity.
Qed.

Lemma request_options_without_body rt verb payload :
  ~ (truthy payload = true /\ (verb = "POST" \/ verb = "PUT")) ->
  request_options rt verb payload = {| method := verb; headers := ∅; body := None |}.
Proof.
  intros H. unfold request_options.
  destruct (truthy payload && _) eqn:Hc; [|reflexivity].
  apply attaches_body_iff in Hc. contradiction.
Qed.

Lemma attaches_body_dec (verb : string) (payload : JSValue) :
  (truthy payload = true /\ (verb = "POST" \/ verb = "PUT"))
  \/ ~ (truthy payload = true /\ (verb = "POST" \/ verb = "PUT")).
Proof.
  destruct (truthy payload && ((verb =? "POST") || (verb =? "PUT"))) eqn:Hc.
  - left. apply attaches_body_iff, Hc.
  - right. intros H. apply attaches_body_iff in H. congruence.
Qed.

(** C6: every call that [apiRequest] issues carries a body and the
    Content-Type header exactly when a payload is supplied (the body argument
    is truthy, as every object is) and the method is POST or PUT; a GET or
    DELETE call has no body and no header, whatever payload is supplied. *)
Theorem apiRequest_body_iff_payload_and_POST_or_PUT :
  forall (rt : Runtime) (endpoint verb : string) (payload : JSValue),
  exists (call : HttpCall) (completion : Completion JSValue) (log : list Event),
    apiRequest endpoint verb payload rt = (completion, NetworkCall call :: log)
    /\ calls log = []
    /\ url call = API_BASE_URL ++ endpoint
    /\ method (options call) = verb
    /\ (is_Some (body (options call))
        <-> truthy payload = true /\ (verb = "POST" \/ verb = "PUT"))
    /\ (is_Some (headers (options call) !! "Content-Type")
        <-> truthy payload = true /\ (verb = "POST" \/ verb = "PUT"))
    /\ (truthy payload = true /\ (verb = "POST" \/ verb = "PUT") ->
        body (options call) = Some (JSON_stringify rt payload)
        /\ headers (options call) = {["Content-Type" := "application/json"]})
    /\ (verb = "GET" \/ verb = "DELETE" ->
        body (options call) = None /\ headers (options call) = ∅)
    /\ (forall properties, payload = JObject properties -> truthy payload = true).
Proof.
  intros rt endpoint verb payload.
  exists (request rt endpoint verb payload).
  assert (Hrun := apiRequest_run rt endpoint verb payload). cbv zeta in Hrun.
  assert (Hopts :
    let o := request_options rt verb payload in
    method o = verb
    /\ (is_Some (body o) <-> truthy payload = true /\ (verb = "POST" \/ verb = "PUT"))
    /\ (is_Some (headers o !! "Content-Type")
        <-> truthy payload = true /\ (verb = "POST" \/ verb = "PUT"))
    /\ (truthy payload = true /\ (verb = "POST" \/ verb = "PUT") ->
        body o = Some (JSON_stringify rt payload)
        /\ headers o = {["Content-Type" := "application/json"]})
    /\ (verb = "GET" \/ verb = "DELETE" -> body o = None /\ headers o = ∅)).
  { cbv zeta. destruct (attaches_body_dec verb payload) as [Hyes|Hno].
    - rewrite (request_options_with_body _ _ _ Hyes); cbn [method body headers].
      split; [reflexivity|]. split; [split; [tauto | eauto]|].
      split; [split; [tauto | intros _; rewrite lookup_singleton_eq; eauto]|].
      split; [tauto|].
      intros Hverb. destruct Hyes as [_ [-> | ->]], Hverb; discriminate.
    - rewrite (request_options_without_body _ _ _ Hno); cbn [method body headers].
      split; [reflexivity|].
      split; [split; [intros [x Hx]; discriminate | tauto]|].
      split; [split; [rewrite lookup_empty; intros [x Hx]; discriminate | tauto]|].
      split; [tauto | split; reflexivity]. }
  cbv zeta in Hopts.
  destruct (read_reply _) as [v|message].
  all: eexists; eexists; split; [exact Hrun|].
  all: split; [reflexivity|]; split; [reflexivity|].
  all: cbn [request options].
  all: repeat (split; [apply Hopts|]).
  all: intros properties ->; reflexivity.
Qed.

(** ** The result of [apiRequest] *)



(** C9: every value that [apiRequest] returns comes from one successful reply
    to its one call, and is the result of exactly one kind for that reply:
    the parsed JSON body or the status message, never both, never neither. *)
Theorem apiRequest_result_exactly_one_kind :
  forall (rt : Runtime) (endpoint verb : string) (payload v : JSValue),
    fst (apiRequest endpoint verb payload rt) = Normal v ->
    exists (call : HttpCall) (response : Response),
      calls (snd (apiRequest endpoint verb payload rt)) = [call]
      /\ fetch rt call = Normal response
      /\ ok response = true
      /\ exists! kind : ApiResultKind, produced_as response kind v.
Proof.
  intros rt endpoint verb payload v Hv.
  rewrite apiRequest_result in Hv.
  exists (request rt endpoint verb payload).
  destruct (fetch rt _) as [response|message] eqn:Hfetch; [|discriminate].
  exists response. split; [apply apiRequest_calls|]. split; [reflexivity|].
  cbn [read_reply] in Hv.
  destruct (ok response); [|destruct (text response); discriminate].
  split; [reflexivity|].
  destruct (names_json (content_type response)) eqn:Hct.
  - exists JsonValue. split; [split; [exact Hct | exact Hv]|].
    intros [|] [Hk _]; [reflexivity | congruence].
  - exists StatusMessage. unfold status_message in Hv.
    split; [split; [exact Hct | congruence]|].
    intros [|] [Hk _]; [congruence | reflexivity].
Qed.

Lemma apiRequest_result_exactly_one_kind_witness :
  exists (call : HttpCall) (response : Response),
    calls (snd (apiRequest "/products/1" "GET" JNull json_runtime)) = [call]
    /\ fetch json_runtime call = Normal response
    /\ ok response = true
    /\ exists! kind : ApiResultKind, produced_as response kind sample_product.
Proof.
  apply (apiRequest_result_exactly_one_kind json_runtime "/products/1" "GET" JNull
           sample_product).
  reflexivity.
Defined.

(** ** Reading the arguments *)

Lemma main_tokens rt node script command path args :
  main (node :: script :: command :: path :: args) rt
  = if (command =? "") || (path =? "") then usage_run
    else dispatch command path args rt.
Proof.
  unfold main; cbn [nth_error skipn missing present].
  destruct ((command =? "") || (path =? "")); reflexivity.
Qed.

Lemma main_short rt argv : (length argv < 4)%nat -> main argv rt = usage_run.
Proof.
  intros Hlen. unfold main.
  assert (Hpath : nth_error argv 3 = None) by (apply nth_error_None; lia).
  rewrite Hpath. cbn [missing]. rewrite orb_true_r. reflexivity.
Qed.

(** C10: when the command or the path is there but is the empty string, the
    run prints the help text and ends normally without any network call, as
    every run with fewer than two arguments after the script name does. *)
Theorem empty_token_prints_usage :
  forall (rt : Runtime) (argv : list string),
    nth_error argv 2 = Some "" \/ nth_error argv 3 = Some "" ->
    main argv rt = (Normal tt, [ConsoleLog [label usage]])
    /\ network_calls rt argv = 0%nat
    /\ forall short : list string,
         (length short < 4)%nat -> main short rt = main argv rt.
Proof.
  intros rt argv H.
  assert (Hrun : main argv rt = usage_run).
  { unfold main. destruct H as [H|H]; rewrite H; cbn [missing String.eqb].
    - reflexivity.
    - rewrite orb_true_r. reflexivity. }
  split; [exact Hrun|]. split.
  - unfold network_calls, run. rewrite Hrun. reflexivity.
  - intros short Hshort. rewrite Hrun. apply main_short, Hshort.
Qed.

Lemma empty_token_prints_usage_witness :
  main ["node"; "index.js"; ""; "products"] json_runtime
  = (Normal tt, [ConsoleLog [label usage]])
  /\ network_calls json_runtime ["node"; "index.js"; ""; "products"] = 0%nat
  /\ forall short : list string,
       (length short < 4)%nat ->
       main short json_runtime = main ["node"; "index.js"; ""; "products"] json_runtime.
Proof.
  apply (empty_token_prints_usage json_runtime ["node"; "index.js"; ""; "products"]).
  left. reflexivity.
Defined.

(** ** Dispatching on the command *)

Lemma toUpperCase_nonempty (command verb : string) :
  JSString.toUpperCase command = verb -> verb <> "" -> command <> "".
Proof. intros H Hverb ->. apply Hverb. symmetry. exact H. Qed.

Lemma main_dispatch rt node script command path args :
  command <> "" -> path <> "" ->
  main (node :: script :: command :: path :: args) rt = dispatch command path args rt.
Proof.
  intros Hc Hp. rewrite main_tokens.
  apply String.eqb_neq in Hc, Hp. rewrite Hc, Hp. reflexivity.
Qed.

Lemma dispatch_GET rt command path args :
  JSString.toUpperCase command = "GET" ->
  dispatch command path args rt
  = try_catch (main_GET path ("/" ++ path) args) report_failure rt.
Proof. intros H. unfold dispatch. rewrite H. reflexivity. Qed.

Lemma dispatch_POST rt command path args :
  JSString.toUpperCase command = "POST" ->
  dispatch command path args rt
  = try_catch (main_POST path ("/" ++ path) args) report_failure rt.
Proof. intros H. unfold dispatch. rewrite H. reflexivity. Qed.

Lemma dispatch_DELETE rt command path args :
  JSString.toUpperCase command = "DELETE" ->
  dispatch command path args rt
  = try_catch (main_DELETE path ("/" ++ path)) report_failure rt.
Proof. intros H. unfold dispatch. rewrite H. reflexivity. Qed.

Lemma dispatch_other rt command path args :
  JSString.toUpperCase command <> "GET" ->
  JSString.toUpperCase command <> "POST" ->
  JSString.toUpperCase command <> "DELETE" ->
  dispatch command path args rt
  = (Normal tt,
     [ConsoleError [label ("Comando no reconocido: " ++ command
                             ++ ". Comandos válidos: GET, POST, DELETE.")]]).
Proof.
  intros Hg Hp Hd. unfold dispatch.
  apply String.eqb_neq in Hg, Hp, Hd. rewrite Hg, Hp, Hd. reflexivity.
Qed.

(** [s.startsWith(p)] says that [s] is [p] followed by some suffix. *)
Lemma startsWith_iff (s p : string) :
  JSString.startsWith s p = true <-> exists suffix, s = p ++ suffix.
Proof.
  revert s. induction p as [|a p IH]; intros s; cbn.
  - split; [intros _; exists s; reflexivity | reflexivity].
  - destruct s as [|b s]; [split; [discriminate | intros [x Hx]; discriminate]|].
    destruct (Ascii.eqb_spec a b) as [->|Hne]; cbn.
    + rewrite IH. split; intros [x Hx]; exists x.
      * rewrite Hx. reflexivity.
      * change (String b s = String b (p ++ x)) in Hx. congruence.
    + split; [discriminate|].
      intros [x Hx]. change (String b s = String a (p ++ x)) in Hx. congruence.
Qed.

Lemma append_cancel (p x y : string) : p ++ x = p ++ y -> x = y.
Proof.
  induction p as [|a p IH]; intros H; [exact H|].
  change (String a (p ++ x) = String a (p ++ y)) in H.
  apply IH. congruence.
Qed.


Lemma request_DELETE rt path :
  request rt ("/" ++ path) "DELETE" JNull = plain_call "DELETE" path.
Proof. reflexivity. Qed.

(** Runs [apiRequest] where the goal applies it to the runtime, and splits on
    how it ends. *)
Ltac run_apiRequest :=
  unfold try_catch, bind;
  rewrite apiRequest_run; cbv zeta;
  destruct (read_reply _) as [?result|?message].

(** ** GET *)

Lemma main_GET_collection rt :
  calls (snd (try_catch (main_GET "products" "/products" []) report_failure rt))
  = [plain_call "GET" "products"].
Proof.
  unfold main_GET; cbn [String.eqb Ascii.eqb Bool.eqb length Nat.eqb andb].
  run_apiRequest; reflexivity.
Qed.

Lemma main_GET_single rt path args :
  JSString.startsWith path "products/" = true ->
  calls (snd (try_catch (main_GET path ("/" ++ path) args) report_failure rt))
  = [plain_call "GET" path].
Proof.
  intros Hpath. unfold main_GET. rewrite Hpath.
  destruct ((path =? "products") && (length args =? 0)%nat).
  - run_apiRequest; reflexivity.
  - run_apiRequest; [|reflexivity].
    destruct args as [|fieldToExtract args]; [reflexivity|].
    destruct (truthy result && (typeof result =? "object")); cbn [andb];
      [destruct (js_in fieldToExtract result)|]; reflexivity.
Qed.

Lemma main_GET_invalid_route rt path args :
  (path =? "products") && (length args =? 0)%nat = false ->
  JSString.startsWith path "products/" = false ->
  try_catch (main_GET path ("/" ++ path) args) report_failure rt
  = (Normal tt,
     [ConsoleError
        [label ("Ruta no válida para GET: '" ++ path
                  ++ "'. Use 'products', 'products/<id>' o 'products/<id> <field>'.")]]).
Proof.
  intros H1 H2. unfold main_GET. rewrite H1, H2. reflexivity.
Qed.

Lemma run_GET rt node script command path args :
  JSString.toUpperCase command = "GET" ->
  path <> "" ->
  run rt (node :: script :: command :: path :: args)
  = snd (try_catch (main_GET path ("/" ++ path) args) report_failure rt).
Proof.
  intros Hverb Hpath.
  assert (Hcommand : command <> "")
    by (apply (toUpperCase_nonempty _ _ Hverb); discriminate).
  unfold run. rewrite main_dispatch, dispatch_GET by assumption. reflexivity.
Qed.

(** C4, as the code has it: for GET, the path products without further
    arguments fetches the collection; a path that starts with products/,
    whatever follows the slash (nothing at all included), fetches that path;
    every other command line (another path, or products with further
    arguments) is answered with the invalid-route error and no call. *)
Theorem GET_routes :
  forall (rt : Runtime) (node script command path : string) (args : list string),
    JSString.toUpperCase command = "GET" ->
    path <> "" ->
    let argv := node :: script :: command :: path :: args in
    (path = "products" -> args = [] ->
     calls (run rt argv) = [plain_call "GET" "products"])
    /\ (forall suffix : string, path = "products/" ++ suffix ->
        calls (run rt argv) = [plain_call "GET" path])
    /\ (~ (path = "products" /\ args = []) ->
        (forall suffix : string, path <> "products/" ++ suffix) ->
        run rt argv
        = [ConsoleError
             [label ("Ruta no válida para GET: '" ++ path
                       ++ "'. Use 'products', 'products/<id>' o 'products/<id> <field>'.")]]
        /\ network_calls rt argv = 0%nat).
Proof.
  intros rt node script command path args Hverb Hpath argv.
  assert (Hrun := run_GET rt node script command path args Hverb Hpath).
  fold argv in Hrun. unfold network_calls. rewrite Hrun. split; [|split].
  - intros -> ->. apply main_GET_collection.
  - intros suffix Hsuffix. apply main_GET_single.
    apply startsWith_iff. exists suffix. exact Hsuffix.
  - intros Hnot Hshape.
    rewrite main_GET_invalid_route; [split; reflexivity| |].
    + destruct (String.eqb_spec path "products") as [->|Hne]; [|reflexivity].
      destruct args as [|a args]; [|reflexivity].
      exfalso. apply Hnot. split; reflexivity.
    + destruct (JSString.startsWith path "products/") eqn:Hs; [|reflexivity].
      apply startsWith_iff in Hs. destruct Hs as [suffix Hs].
      exfalso. exact (Hshape suffix Hs).
Qed.

Lemma GET_routes_witness :
  let argv := ["node"; "index.js"; "get"; "products/15"; "title"] in
  (("products/15" : string) = "products" -> ["title"] = @nil string ->
   calls (run json_runtime argv) = [plain_call "GET" "products"])
  /\ (forall suffix : string, "products/15" = "products/" ++ suffix ->
      calls (run json_runtime argv) = [plain_call "GET" "products/15"])
  /\ (~ (("products/15" : string) = "products" /\ ["title"] = @nil string) ->
      (forall suffix : string, "products/15" <> "products/" ++ suffix) ->
      run json_runtime argv
      = [ConsoleError
           [label ("Ruta no válida para GET: '" ++ "products/15"
                     ++ "'. Use 'products', 'products/<id>' o 'products/<id> <field>'.")]]
      /\ network_calls json_runtime argv = 0%nat).
Proof.
  apply (GET_routes json_runtime "node" "index.js" "get" "products/15" ["title"]).
  - reflexivity.
  - discriminate.
Defined.

(** C4, as stated, fails on the path products/ : nothing follows the slash, so
    the path is neither products nor products/<id> with an id, and yet the run
    issues the call for it instead of reporting an invalid route. *)
Lemma GET_empty_id_is_fetched :
  ("products/" : string) <> "products"
  /\ (forall suffix : string, suffix <> "" -> "products/" <> "products/" ++ suffix)
  /\ forall rt : Runtime,
       calls (run rt ["node"; "index.js"; "GET"; "products/"])
       = [ {| url := "https://fakestoreapi.com/products/";
              options := {| method := "GET"; headers := ∅; body := None |} |} ]
       /\ network_calls rt ["node"; "index.js"; "GET"; "products/"] = 1%nat.
Proof.
  split; [discriminate|]. split.
  - intros suffix Hne H. apply Hne. symmetry.
    apply (append_cancel "products/"). exact H.
  - intros rt.
    assert (H : calls (run rt ["node"; "index.js"; "GET"; "products/"])
                = [plain_call "GET" "products/"]).
    { rewrite run_GET by (reflexivity || discriminate).
      apply main_GET_single. reflexivity. }
    unfold network_calls. rewrite H. split; reflexivity.
Qed.

(** ** POST *)

Lemma run_POST rt node script command path args :
  JSString.toUpperCase command = "POST" ->
  path <> "" ->
  run rt (node :: script :: command :: path :: args)
  = snd (try_catch (main_POST path ("/" ++ path) args) report_failure rt).
Proof.
  intros Hverb Hpath.
  assert (Hcommand : command <> "")
    by (apply (toUpperCase_nonempty _ _ Hverb); discriminate).
  unfold run. rewrite main_dispatch, dispatch_POST by assumption. reflexivity.
Qed.

Lemma main_POST_price_NaN rt title priceStr category rest :
  JSNumber.isNaN (JSNumber.parseFloat priceStr) = true ->
  try_catch (main_POST "products" "/products" (title :: priceStr :: category :: rest))
    report_failure rt
  = (Normal tt, [ConsoleError [label "El precio debe ser un número válido."]]).
Proof.
  intros Hprice. unfold main_POST.
  cbn [String.eqb Ascii.eqb Bool.eqb length Nat.ltb Nat.leb nth_error present].
  rewrite Hprice. reflexivity.
Qed.

Lemma main_POST_calls rt title priceStr category rest :
  JSNumber.isNaN (JSNumber.parseFloat priceStr) = false ->
  calls (snd (try_catch
                (main_POST "products" "/products" (title :: priceStr :: category :: rest))
                report_failure rt))
  = [ {| url := "https://fakestoreapi.com/products";
         options :=
           {| method := "POST";
              headers := {["Content-Type" := "application/json"]};
              body := Some (JSON_stringify rt
                              (newProduct title (JSNumber.parseFloat priceStr) category
                                          (nth_error rest 0) (nth_error rest 1))) |} |} ].
Proof.
  intros Hprice. unfold main_POST.
  cbn [String.eqb Ascii.eqb Bool.eqb length Nat.ltb Nat.leb nth_error present].
  rewrite Hprice. run_apiRequest; reflexivity.
Qed.


Lemma main_POST_invalid_route rt path args :
  path <> "products" ->
  try_catch (main_POST path ("/" ++ path) args) report_failure rt
  = (Normal tt,
     [ConsoleError [label ("Ruta no válida para POST: " ++ path ++ ". Use 'products'.")]]).
Proof.
  intros Hpath. unfold main_POST. apply String.eqb_neq in Hpath. rewrite Hpath.
  reflexivity.
Qed.

(** C2, as the code has it: for POST products with at least three further
    arguments, the price must parse to something other than NaN.  When it
    parses to NaN the validation error is reported and no call is issued;
    otherwise (a finite value or an infinity) exactly one call is issued. *)
Theorem POST_price_NaN_is_rejected :
  forall (rt : Runtime) (node script command title priceStr category : string)
         (rest : list string),
    JSString.toUpperCase command = "POST" ->
    let argv :=
      node :: script :: command :: "products" :: title :: priceStr :: category :: rest in
    (JSNumber.isNaN (JSNumber.parseFloat priceStr) = true ->
     run rt argv = [ConsoleError [label "El precio debe ser un número válido."]]
     /\ network_calls rt argv = 0%nat)
    /\ (JSNumber.isNaN (JSNumber.parseFloat priceStr) = false ->
        network_calls rt argv = 1%nat).
Proof.
  intros rt node script command title priceStr category rest Hverb argv.
  unfold network_calls, argv. rewrite run_POST by (assumption || discriminate).
  split; intros Hprice.
  - change ("/" ++ "products") with "/products".
    rewrite main_POST_price_NaN by assumption. split; reflexivity.
  - change ("/" ++ "products") with "/products".
    rewrite main_POST_calls by assumption. reflexivity.
Qed.

Lemma POST_price_NaN_is_rejected_witness :
  let argv := ["node"; "index.js"; "POST"; "products"; "T"; "abc"; "cat"] in
  (JSNumber.isNaN (JSNumber.parseFloat "abc") = true ->
   run json_runtime argv = [ConsoleError [label "El precio debe ser un número válido."]]
   /\ network_calls json_runtime argv = 0%nat)
  /\ (JSNumber.isNaN (JSNumber.parseFloat "abc") = false ->
      network_calls json_runtime argv = 1%nat).
Proof.
  apply (POST_price_NaN_is_rejected json_runtime "node" "index.js" "POST" "T" "abc" "cat" []).
  reflexivity.
Defined.

(** C2, as stated, fails on the prices Infinity and 1e999: neither parses to a
    finite number, and yet no validation error stops the run, which issues
    the call. *)
Lemma POST_infinite_price_is_sent :
  JSNumber.isFinite (JSNumber.parseFloat "Infinity") = false
  /\ JSNumber.isFinite (JSNumber.parseFloat "1e999") = false
  /\ forall rt : Runtime,
       network_calls rt ["node"; "index.js"; "POST"; "products"; "T"; "Infinity"; "cat"]
       = 1%nat
       /\ network_calls rt ["node"; "index.js"; "POST"; "products"; "T"; "1e999"; "cat"]
          = 1%nat.
Proof.
  split; [reflexivity|]. split; [vm_compute; reflexivity|].
  intros rt. unfold network_calls.
  rewrite !run_POST by (reflexivity || discriminate).
  change ("/" ++ "products") with "/products".
  rewrite !main_POST_calls by reflexivity. split; reflexivity.
Qed.

(** C5, as the code has it: for POST products with valid arguments, the
    fourth and fifth further arguments are the description and the image of
    the payload when they are there and not empty; the default literals are
    substituted when an argument is missing and also when it is the empty
    string. *)
Theorem POST_payload_description_and_image :
  forall (rt : Runtime) (node script command title priceStr category : string)
         (rest : list string),
    JSString.toUpperCase command = "POST" ->
    JSNumber.isNaN (JSNumber.parseFloat priceStr) = false ->
    let argv :=
      node :: script :: command :: "products" :: title :: priceStr :: category :: rest in
    exists description image : string,
      calls (run rt argv)
      = [ {| url := "https://fakestoreapi.com/products";
             options :=
               {| method := "POST";
                  headers := {["Content-Type" := "application/json"]};
                  body := Some (JSON_stringify rt
                            (JObject [ ("title", JString title);
                                       ("price", JNumber (JSNumber.parseFloat priceStr));
                                       ("category", JString category);
                                       ("description", JString description);
                                       ("image", JString image) ])) |} |} ]
      /\ (forall d : string, nth_error rest 0 = Some d -> d <> "" -> description = d)
      /\ (nth_error rest 0 = Some "" \/ nth_error rest 0 = None ->
          description = "Default product description")
      /\ (forall i : string, nth_error rest 1 = Some i -> i <> "" -> image = i)
      /\ (nth_error rest 1 = Some "" \/ nth_error rest 1 = None ->
          image = "https://calculo-intereses.onrender.com").
Proof.
  intros rt node script command title priceStr category rest Hverb Hprice argv.
  exists (or_default (nth_error rest 0) "Default product description").
  exists (or_default (nth_error rest 1) "https://calculo-intereses.onrender.com").
  split.
  - unfold argv. rewrite run_POST by (assumption || discriminate).
    change ("/" ++ "products") with "/products".
    rewrite main_POST_calls by assumption. reflexivity.
  - unfold or_default, missing, present.
    repeat split.
    + intros d -> Hd. apply String.eqb_neq in Hd. rewrite Hd. reflexivity.
    + intros [-> | ->]; reflexivity.
    + intros i -> Hi. apply String.eqb_neq in Hi. rewrite Hi. reflexivity.
    + intros [-> | ->]; reflexivity.
Qed.

Lemma POST_payload_description_and_image_witness :
  let argv := ["node"; "index.js"; "POST"; "products"; "T"; "9.99"; "cat"; "A bag"] in
  exists description image : string,
    calls (run json_runtime argv)
    = [ {| url := "https://fakestoreapi.com/products";
           options :=
             {| method := "POST";
                headers := {["Content-Type" := "application/json"]};
                body := Some (JSON_stringify json_runtime
                          (JObject [ ("title", JString "T");
                                     ("price", JNumber (JSNumber.parseFloat "9.99"));
                                     ("category", JString "cat");
                                     ("description", JString description);
                                     ("image", JString image) ])) |} |} ]
    /\ (forall d : string, nth_error ["A bag"] 0 = Some d -> d <> "" -> description = d)
    /\ (nth_error ["A bag"] 0 = Some "" \/ nth_error ["A bag"] 0 = None ->
        description = "Default product description")
    /\ (forall i : string, nth_error ["A bag"] 1 = Some i -> i <> "" -> image = i)
    /\ (nth_error ["A bag"] 1 = Some "" \/ nth_error ["A bag"] 1 = None ->
        image = "https://calculo-intereses.onrender.com").
Proof.
  apply (POST_payload_description_and_image json_runtime "node" "index.js" "POST"
           "T" "9.99" "cat" ["A bag"]).
  - reflexivity.
  - reflexivity.
Defined.

(** C5, as stated, fails when the fourth and fifth arguments are there but are
    empty strings: the payload then holds the default literals, not the
    arguments. *)
Lemma POST_empty_description_is_defaulted :
  let args := ["T"; "9.99"; "cat"; ""; ""] in
  nth_error args 3 = Some ""
  /\ nth_error args 4 = Some ""
  /\ forall rt : Runtime,
       calls (run rt ("node" :: "index.js" :: "POST" :: "products" :: args))
       = [ {| url := "https://fakestoreapi.com/products";
              options :=
                {| method := "POST";
                   headers := {["Content-Type" := "application/json"]};
                   body := Some (JSON_stringify rt
                             (JObject
                                [ ("title", JString "T");
                                  ("price", JNumber (JSNumber.Decimal false 999 (-2)));
                                  ("category", JString "cat");
                                  ("description", JString "Default product description");
                                  ("image",
                                   JString "https://calculo-intereses.onrender.com") ])) |} |} ].
Proof.
  cbv zeta. split; [reflexivity|]. split; [reflexivity|].
  intros rt. rewrite run_POST by (reflexivity || discriminate).
  change ("/" ++ "products") with "/products".
  rewrite main_POST_calls by reflexivity. reflexivity.
Qed.

(** ** The product id of a path *)

Lemma before_slash_slash (r : string) : before_slash (String "/" r) = "".
Proof. reflexivity. Qed.

Lemma before_slash_other (c : ascii) (r : string) :
  c <> "/"%char -> before_slash (String c r) = String c (before_slash r).
Proof. intros H. cbn. apply Ascii.eqb_neq in H. rewrite H. reflexivity. Qed.

Lemma split_before_slash (s : string) :
  exists segments, JSString.split "/" s = before_slash s :: segments.
Proof.
  induction s as [|c r [segments IH]]; cbn.
  - exists []. reflexivity.
  - destruct (Ascii.eqb c "/").
    + eexists. reflexivity.
    + rewrite IH. eexists. reflexivity.
Qed.

Lemma product_id_of_suffix (suffix : string) :
  product_id ("products/" ++ suffix) = Some (before_slash suffix).
Proof.
  unfold product_id.
  change (JSString.split "/" ("products/" ++ suffix))
    with ("products" :: JSString.split "/" suffix).
  destruct (split_before_slash suffix) as [segments ->]. reflexivity.
Qed.

(** No byte of a white-space character is the slash. *)
Lemma is_ws1_code c : JSString.is_ws1 c = true -> (N_of_ascii c <= 32)%N.
Proof.
  unfold JSString.is_ws1.
  rewrite orb_true_iff, andb_true_iff, N.eqb_eq, !N.leb_le. lia.
Qed.

Lemma is_ws2_code c1 c2 :
  JSString.is_ws2 c1 c2 = true -> (128 <= N_of_ascii c1 /\ 128 <= N_of_ascii c2)%N.
Proof.
  unfold JSString.is_ws2. rewrite andb_true_iff, !N.eqb_eq. lia.
Qed.

Lemma is_ws3_code c1 c2 c3 :
  JSString.is_ws3 c1 c2 c3 = true ->
  (128 <= N_of_ascii c1 /\ 128 <= N_of_ascii c2 /\ 128 <= N_of_ascii c3)%N.
Proof.
  unfold JSString.is_ws3. cbv zeta.
  rewrite !orb_true_iff, !andb_true_iff, !orb_true_iff, !andb_true_iff,
    !N.eqb_eq, !N.leb_le.
  lia.
Qed.

Lemma slash_code : N_of_ascii "/" = 47%N.
Proof. reflexivity. Qed.

(** Decides whether a white-space test that involves the slash can hold. *)
Ltac no_slash_ws :=
  match goal with
  | H : JSString.is_ws1 _ = true |- _ =>
      apply is_ws1_code in H; rewrite ?slash_code in H; lia
  | H : JSString.is_ws2 _ _ = true |- _ =>
      apply is_ws2_code in H; rewrite ?slash_code in H; lia
  | H : JSString.is_ws3 _ _ _ = true |- _ =>
      apply is_ws3_code in H; rewrite ?slash_code in H; lia
  end.

Lemma trimStart_before_slash_bounded (n : nat) :
  forall s : string,
    (String.length s <= n)%nat ->
    JSString.trimStart (before_slash s) = before_slash (JSString.trimStart s).
Proof.
  induction n as [|n IH]; intros s Hlen.
  { destruct s; [reflexivity | cbn in Hlen; lia]. }
  destruct s as [|c1 s1]; [reflexivity|].
  cbn [String.length] in Hlen.
  destruct (Ascii.eqb_spec c1 "/") as [->|H1].
  { rewrite before_slash_slash. cbn [JSString.trimStart].
    destruct (JSString.is_ws1 "/") eqn:E1; [no_slash_ws|].
    destruct s1 as [|c2 s2]; [reflexivity|].
    destruct (JSString.is_ws2 "/" c2) eqn:E2; [no_slash_ws|].
    destruct s2 as [|c3 s3]; [reflexivity|].
    destruct (JSString.is_ws3 "/" c2 c3) eqn:E3; [no_slash_ws|]. reflexivity. }
  rewrite (before_slash_other _ _ H1). cbn [JSString.trimStart].
  destruct (JSString.is_ws1 c1) eqn:E1; [apply IH; lia|].
  destruct s1 as [|c2 s2].
  { change (before_slash "") with "".
    rewrite (before_slash_other _ _ H1). reflexivity. }
  cbn [String.length] in Hlen.
  destruct (Ascii.eqb_spec c2 "/") as [->|H2].
  { rewrite before_slash_slash.
    destruct (JSString.is_ws2 c1 "/") eqn:E2; [no_slash_ws|].
    destruct s2 as [|c3 s3].
    - rewrite (before_slash_other _ _ H1), before_slash_slash. reflexivity.
    - destruct (JSString.is_ws3 c1 "/" c3) eqn:E3; [no_slash_ws|].
      rewrite (before_slash_other _ _ H1), before_slash_slash. reflexivity. }
  rewrite (before_slash_other _ _ H2).
  destruct (JSString.is_ws2 c1 c2) eqn:E2; [apply IH; lia|].
  destruct s2 as [|c3 s3].
  { change (before_slash "") with "".
    rewrite (before_slash_other _ _ H1), (before_slash_other _ _ H2). reflexivity. }
  cbn [String.length] in Hlen.
  destruct (Ascii.eqb_spec c3 "/") as [->|H3].
  { rewrite before_slash_slash.
    destruct (JSString.is_ws3 c1 c2 "/") eqn:E3; [no_slash_ws|].
    rewrite (before_slash_other _ _ H1), (before_slash_other _ _ H2),
      before_slash_slash. reflexivity. }
  rewrite (before_slash_other _ _ H3).
  destruct (JSString.is_ws3 c1 c2 c3) eqn:E3; [apply IH; lia|].
  rewrite (before_slash_other _ _ H1), (before_slash_other _ _ H2),
    (before_slash_other _ _ H3). reflexivity.
Qed.

Lemma trimStart_before_slash (s : string) :
  JSString.trimStart (before_slash s) = before_slash (JSString.trimStart s).
Proof. apply (trimStart_before_slash_bounded (String.length s)). lia. Qed.

Lemma read_sign_before_slash (s : string) :
  JSNumber.read_sign (before_slash s)
  = (fst (JSNumber.read_sign s), before_slash (snd (JSNumber.read_sign s))).
Proof.
  destruct s as [|[[] [] [] [] [] [] [] []] r]; reflexivity.
Qed.

Lemma read_radix_before_slash (s : string) :
  JSNumber.read_radix (before_slash s)
  = (fst (JSNumber.read_radix s), before_slash (snd (JSNumber.read_radix s))).
Proof.
  destruct s as [|[[] [] [] [] [] [] [] []] s1]; try reflexivity.
  destruct s1 as [|[[] [] [] [] [] [] [] []] s2]; reflexivity.
Qed.

Lemma read_digits_before_slash (R : N) (s : string) :
  forall acc : option N,
    JSNumber.read_digits R acc (before_slash s) = JSNumber.read_digits R acc s.
Proof.
  induction s as [|c r IH]; intros acc; [reflexivity|].
  destruct (Ascii.eqb_spec c "/") as [->|Hc].
  - reflexivity.
  - rewrite (before_slash_other _ _ Hc). cbn [JSNumber.read_digits].
    destruct (JSNumber.radix_digit R c); [apply IH | reflexivity].
Qed.

(** [parseInt] reads nothing beyond the first slash. *)
Lemma parseInt_before_slash (s : string) :
  JSNumber.parseInt (before_slash s) = JSNumber.parseInt s.
Proof.
  unfold JSNumber.parseInt.
  rewrite trimStart_before_slash, read_sign_before_slash.
  destruct (JSNumber.read_sign (JSString.trimStart s)) as [negative r]; cbn [fst snd].
  rewrite read_radix_before_slash.
  destruct (JSNumber.read_radix r) as [R r']; cbn [fst snd].
  rewrite read_digits_before_slash. reflexivity.
Qed.

Lemma invalid_id_of_suffix (suffix : string) :
  invalid_id (product_id ("products/" ++ suffix))
  = JSNumber.isNaN (JSNumber.parseInt suffix).
Proof.
  rewrite product_id_of_suffix. unfold invalid_id, missing, JSString.interpolate.
  rewrite parseInt_before_slash.
  destruct (String.eqb_spec (before_slash suffix) "") as [Hempty|_]; [|reflexivity].
  rewrite <- parseInt_before_slash, Hempty. reflexivity.
Qed.

(** ** Decimal integers *)

(** Every decimal integer is a text on which [parseInt] succeeds. *)
Lemma trimStart_ascii (c : ascii) (r : string) :
  JSString.is_ws1 c = false ->
  (N_of_ascii c < 128)%N ->
  JSString.trimStart (String c r) = String c r.
Proof.
  intros Hws Hcode. cbn [JSString.trimStart]. rewrite Hws.
  destruct r as [|c2 r2]; [reflexivity|].
  destruct (JSString.is_ws2 c c2) eqn:E2; [apply is_ws2_code in E2; lia|].
  destruct r2 as [|c3 r3]; [reflexivity|].
  destruct (JSString.is_ws3 c c2 c3) eqn:E3; [apply is_ws3_code in E3; lia|].
  reflexivity.
Qed.

Lemma decimal_digit_plain (c : ascii) (d : N) :
  JSNumber.radix_digit 10 c = Some d ->
  JSString.is_ws1 c = false
  /\ (N_of_ascii c < 128)%N
  /\ c <> "-"%char /\ c <> "+"%char /\ c <> "x"%char /\ c <> "X"%char.
Proof.
  destruct c as [[] [] [] [] [] [] [] []]; vm_compute; intros H; try discriminate;
    repeat split; discriminate.
Qed.

Lemma read_sign_other (c : ascii) (r : string) :
  c <> "-"%char -> c <> "+"%char ->
  JSNumber.read_sign (String c r) = (false, String c r).
Proof.
  intros Hm Hp.
  destruct c as [[] [] [] [] [] [] [] []]; try reflexivity; contradiction.
Qed.

Lemma read_radix_other (c1 c2 : ascii) (r : string) :
  c2 <> "x"%char -> c2 <> "X"%char ->
  JSNumber.read_radix (String c1 (String c2 r)) = (10%N, String c1 (String c2 r)).
Proof.
  intros Hx HX.
  destruct c1 as [[] [] [] [] [] [] [] []]; try reflexivity.
  destruct c2 as [[] [] [] [] [] [] [] []]; try reflexivity; contradiction.
Qed.

Lemma read_radix_single (c : ascii) :
  JSNumber.read_radix (String c "") = (10%N, String c "").
Proof. destruct c as [[] [] [] [] [] [] [] []]; reflexivity. Qed.

Lemma read_digits_started (R : N) (s : string) :
  forall a : N, JSNumber.read_digits R (Some a) s <> None.
Proof.
  induction s as [|c r IH]; intros a; cbn [JSNumber.read_digits]; [discriminate|].
  destruct (JSNumber.radix_digit R c); [apply IH | discriminate].
Qed.

Lemma digits_are_read (s : string) :
  all_digits s = true ->
  s <> "" ->
  JSNumber.read_radix s = (10%N, s)
  /\ JSNumber.read_digits 10 None s <> None.
Proof.
  intros Hall Hne.
  destruct s as [|d r]; [contradiction|].
  cbn [all_digits] in Hall.
  destruct (JSNumber.radix_digit 10 d) as [v|] eqn:Hd; [|discriminate].
  split.
  - destruct r as [|c2 r2]; [apply read_radix_single|].
    cbn [all_digits] in Hall.
    destruct (JSNumber.radix_digit 10 c2) as [v2|] eqn:Hd2; [|discriminate].
    apply read_radix_other; apply (decimal_digit_plain _ _ Hd2).
  - cbn [JSNumber.read_digits]. rewrite Hd. apply read_digits_started.
Qed.

Lemma parseInt_signed_digits (negative : bool) (digits : string) :
  all_digits digits = true ->
  digits <> "" ->
  JSNumber.isNaN
    (let '(R, s) := JSNumber.read_radix digits in
     match JSNumber.read_digits R None s with
     | Some v => JSNumber.Decimal negative v 0
     | None => JSNumber.NaN
     end) = false.
Proof.
  intros Hall Hne. destruct (digits_are_read digits Hall Hne) as [-> Hread].
  destruct (JSNumber.read_digits 10 None digits); [reflexivity | contradiction].
Qed.

Lemma decimal_integer_parses (s : string) :
  decimal_integer s = true -> JSNumber.isNaN (JSNumber.parseInt s) = false.
Proof.
  unfold decimal_integer. intros H.
  destruct s as [|c r]; [discriminate|].
  unfold JSNumber.parseInt.
  destruct (Ascii.eqb_spec c "-") as [->|Hm];
    [|destruct (Ascii.eqb_spec c "+") as [->|Hp]].
  - rewrite trimStart_ascii by reflexivity.
    change (JSNumber.read_sign (String "-" r)) with (true, r) in *. cbn [snd] in H.
    apply andb_true_iff in H as [Hne Hall].
    apply parseInt_signed_digits; [exact Hall|].
    apply String.eqb_neq, negb_true_iff, Hne.
  - rewrite trimStart_ascii by reflexivity.
    change (JSNumber.read_sign (String "+" r)) with (false, r) in *. cbn [snd] in H.
    apply andb_true_iff in H as [Hne Hall].
    apply parseInt_signed_digits; [exact Hall|].
    apply String.eqb_neq, negb_true_iff, Hne.
  - rewrite (read_sign_other _ _ Hm Hp) in H. cbn [snd] in H.
    apply andb_true_iff in H as [_ Hall].
    assert (Hc : exists d, JSNumber.radix_digit 10 c = Some d).
    { cbn [all_digits] in Hall. destruct (JSNumber.radix_digit 10 c); [eauto | discriminate]. }
    destruct Hc as [d Hd]. destruct (decimal_digit_plain _ _ Hd) as (Hws & Hcode & _).
    rewrite (trimStart_ascii _ _ Hws Hcode), (read_sign_other _ _ Hm Hp).
    apply parseInt_signed_digits; [exact Hall | discriminate].
Qed.

(** ** DELETE *)

Lemma run_DELETE rt node script command path args :
  JSString.toUpperCase command = "DELETE" ->
  path <> "" ->
  run rt (node :: script :: command :: path :: args)
  = snd (try_catch (main_DELETE path ("/" ++ path)) report_failure rt).
Proof.
  intros Hverb Hpath.
  assert (Hcommand : command <> "")
    by (apply (toUpperCase_nonempty _ _ Hverb); discriminate).
  unfold run. rewrite main_dispatch, dispatch_DELETE by assumption. reflexivity.
Qed.

Lemma main_DELETE_invalid_id rt path :
  JSString.startsWith path "products/" = true ->
  invalid_id (product_id path) = true ->
  try_catch (main_DELETE path ("/" ++ path)) report_failure rt
  = (Normal tt,
     [ConsoleError
        [label "Para DELETE products, se requiere un ID numérico válido: products/<productId>"]]).
Proof.
  intros Hpath Hid. unfold main_DELETE. rewrite Hpath, Hid. reflexivity.
Qed.

Lemma main_DELETE_calls rt path :
  JSString.startsWith path "products/" = true ->
  invalid_id (product_id path) = false ->
  calls (snd (try_catch (main_DELETE path ("/" ++ path)) report_failure rt))
  = [plain_call "DELETE" path].
Proof.
  intros Hpath Hid. unfold main_DELETE. rewrite Hpath, Hid.
  run_apiRequest; reflexivity.
Qed.

Lemma main_DELETE_invalid_route rt path :
  JSString.startsWith path "products/" = false ->
  try_catch (main_DELETE path ("/" ++ path)) report_failure rt
  = (Normal tt,
     [ConsoleError
        [label ("Ruta no válida para DELETE: " ++ path ++ ". Use 'products/<id>'.")]]).
Proof.
  intros Hpath. unfold main_DELETE. rewrite Hpath. reflexivity.
Qed.

(** C3, as the code has it: for DELETE, only a path that starts with
    products/ is accepted, any other path being an invalid route without a
    call; when the suffix does not begin with an integer, so that [parseInt]
    gives NaN, the validation error is reported and no call is issued; when
    the suffix is a decimal integer the call is issued for the path. *)
Theorem DELETE_requires_integer_id :
  forall (rt : Runtime) (node script command path : string) (args : list string),
    JSString.toUpperCase command = "DELETE" ->
    path <> "" ->
    let argv := node :: script :: command :: path :: args in
    (forall suffix : string,
       path = "products/" ++ suffix ->
       JSNumber.isNaN (JSNumber.parseInt suffix) = true ->
       run rt argv
       = [ConsoleError
            [label "Para DELETE products, se requiere un ID numérico válido: products/<productId>"]]
       /\ network_calls rt argv = 0%nat)
    /\ (forall suffix : string,
          path = "products/" ++ suffix ->
          decimal_integer suffix = true ->
          calls (run rt argv) = [plain_call "DELETE" path])
    /\ ((forall suffix : string, path <> "products/" ++ suffix) ->
        run rt argv
        = [ConsoleError
             [label ("Ruta no válida para DELETE: " ++ path ++ ". Use 'products/<id>'.")]]
        /\ network_calls rt argv = 0%nat).
Proof.
  intros rt node script command path args Hverb Hpath argv.
  assert (Hrun := run_DELETE rt node script command path args Hverb Hpath).
  fold argv in Hrun. unfold network_calls. rewrite Hrun.
  split; [|split].
  - intros suffix -> Hnan.
    rewrite main_DELETE_invalid_id; [split; reflexivity|reflexivity|].
    rewrite invalid_id_of_suffix. exact Hnan.
  - intros suffix -> Hint.
    apply main_DELETE_calls; [reflexivity|].
    rewrite invalid_id_of_suffix. apply decimal_integer_parses, Hint.
  - intros Hshape. rewrite main_DELETE_invalid_route; [split; reflexivity|].
    destruct (JSString.startsWith path "products/") eqn:Hs; [|reflexivity].
    apply startsWith_iff in Hs. destruct Hs as [suffix Hs].
    exfalso. exact (Hshape suffix Hs).
Qed.

Lemma DELETE_requires_integer_id_witness :
  let argv := ["node"; "index.js"; "DELETE"; "products/7"] in
  (forall suffix : string,
     "products/7" = "products/" ++ suffix ->
     JSNumber.isNaN (JSNumber.parseInt suffix) = true ->
     run no_content_runtime argv
     = [ConsoleError
          [label "Para DELETE products, se requiere un ID numérico válido: products/<productId>"]]
     /\ network_calls no_content_runtime argv = 0%nat)
  /\ (forall suffix : string,
        "products/7" = "products/" ++ suffix ->
        decimal_integer suffix = true ->
        calls (run no_content_runtime argv) = [plain_call "DELETE" "products/7"])
  /\ ((forall suffix : string, "products/7" <> "products/" ++ suffix) ->
      run no_content_runtime argv
      = [ConsoleError
           [label ("Ruta no válida para DELETE: " ++ "products/7"
                     ++ ". Use 'products/<id>'.")]]
      /\ network_calls no_content_runtime argv = 0%nat).
Proof.
  apply (DELETE_requires_integer_id no_content_runtime "node" "index.js" "DELETE"
           "products/7" []).
  - reflexivity.
  - discriminate.
Defined.

(** C3, as stated, fails on the suffixes 7abc, 7.5 and 1e3: none of them is
    an integer, and yet no validation error stops the run, which issues the
    call, because [parseInt] reads the integer they begin with. *)
Lemma DELETE_non_integer_id_is_sent :
  decimal_integer "7abc" = false
  /\ decimal_integer "7.5" = false
  /\ decimal_integer "1e3" = false
  /\ forall rt : Runtime,
       calls (run rt ["node"; "index.js"; "DELETE"; "products/7abc"])
       = [plain_call "DELETE" "products/7abc"]
       /\ calls (run rt ["node"; "index.js"; "DELETE"; "products/7.5"])
          = [plain_call "DELETE" "products/7.5"]
       /\ calls (run rt ["node"; "index.js"; "DELETE"; "products/1e3"])
          = [plain_call "DELETE" "products/1e3"].
Proof.
  repeat (split; [reflexivity|]).
  intros rt. rewrite !run_DELETE by (reflexivity || discriminate).
  repeat split; apply main_DELETE_calls; reflexivity.
Qed.

Example DELETE_seven_accepted :
  forall rt : Runtime,
    calls (run rt ["node"; "index.js"; "DELETE"; "products/7"])
    = [plain_call "DELETE" "products/7"].
Proof.
  intros rt. rewrite run_DELETE by (reflexivity || discriminate).
  apply main_DELETE_calls; reflexivity.
Qed.

Example DELETE_word_rejected :
  forall rt : Runtime,
    network_calls rt ["node"; "index.js"; "DELETE"; "products/seven"] = 0%nat.
Proof.
  intros rt. unfold network_calls. rewrite run_DELETE by (reflexivity || discriminate).
  rewrite main_DELETE_invalid_id by reflexivity. reflexivity.
Qed.

Example DELETE_trailing_text_accepted :
  forall rt : Runtime,
    calls (run rt ["node"; "index.js"; "DELETE"; "products/7abc"])
    = [plain_call "DELETE" "products/7abc"]
    /\ calls (run rt ["node"; "index.js"; "DELETE"; "products/7/reviews"])
       = [plain_call "DELETE" "products/7/reviews"].
Proof.
  intros rt. rewrite !run_DELETE by (reflexivity || discriminate).
  split; apply main_DELETE_calls; reflexivity.
Qed.

(** ** One network call, or none *)








(** ** GET with a field to extract *)



(** C1 fails on the code for a field that the product only inherits: the
    sample product has no own key toString, which [Object.keys] does not
    list, and yet the run prints the inherited member instead of reporting
    that the field does not exist. *)
Theorem GET_inherited_field_is_printed :
  own_property "toString" sample_product = None
  /\ Object_keys sample_product = JArray [JString "id"; JString "title"; JString "price"]
  /\ run json_runtime ["node"; "index.js"; "GET"; "products/1"; "toString"]
     = [NetworkCall (plain_call "GET" "products/1");
        ConsoleLog [label "Campo 'toString' del producto 1:";
                    Inherited Object_prototype "toString"]].
Proof. repeat split. Qed.

(** ** The handler of the outer try *)

Lemma try_catch_report_failure (m : Prog unit) (rt : Runtime) :
  fst (try_catch m report_failure rt) = Normal tt.
Proof.
  unfold try_catch. destruct (m rt) as [[[]|message] trace]; reflexivity.
Qed.

(** ** The failures of [apiRequest] *)


(** A reply whose status is outside 200 to 299 makes [apiRequest] fail,
    whatever its content type: the body is read as text and not parsed, and
    the message holds the status code, the status text and that body; when
    the body cannot be read, the failure of the read is the error. *)
Theorem apiRequest_remote_error :
  forall (rt : Runtime) (endpoint verb : string) (payload : JSValue)
         (call : HttpCall) (response : Response),
    In call (calls (snd (apiRequest endpoint verb payload rt))) ->
    fetch rt call = Normal response ->
    ok response = false ->
    fst (apiRequest endpoint verb payload rt)
    = match text response with
      | Normal errorBody =>
          Throw ("Error " ++ JSString.of_N (status response) ++ ": "
                 ++ statusText response ++ ". Body: " ++ errorBody)
      | Throw message => Throw message
      end.
Proof.
  intros rt endpoint verb payload call response Hcall Hfetch Hok.
  rewrite apiRequest_calls in Hcall. destruct Hcall as [<- | []].
  rewrite apiRequest_result, Hfetch. cbn [read_reply]. rewrite Hok. reflexivity.
Qed.

Lemma apiRequest_remote_error_witness :
  fst (apiRequest "/products/999" "GET" JNull not_found_runtime)
  = Throw "Error 404: Not Found. Body: no such product".
Proof.
  apply (apiRequest_remote_error not_found_runtime "/products/999" "GET" JNull
           (request not_found_runtime "/products/999" "GET" JNull)
           not_found_response).
  - left. reflexivity.
  - reflexivity.
  - reflexivity.
Defined.



(** ** The shape of every run that reaches the network *)

Lemma try_catch_apiRequest_value rt endpoint verb payload (k : JSValue -> Prog unit) v :
  read_reply (fetch rt (request rt endpoint verb payload)) = Normal v ->
  fst (k v rt) = Normal tt ->
  try_catch (bind (apiRequest endpoint verb payload) k) report_failure rt
  = (Normal tt, NetworkCall (request rt endpoint verb payload) :: snd (k v rt)).
Proof.
  intros Hreply Hk. unfold try_catch, bind.
  rewrite apiRequest_run; cbv zeta. rewrite Hreply.
  destruct (k v rt) as [r t]. cbn [fst snd] in *. rewrite Hk. reflexivity.
Qed.

Lemma try_catch_apiRequest_failure rt endpoint verb payload (k : JSValue -> Prog unit)
    message :
  read_reply (fetch rt (request rt endpoint verb payload)) = Throw message ->
  try_catch (bind (apiRequest endpoint verb payload) k) report_failure rt
  = (Normal tt,
     [NetworkCall (request rt endpoint verb payload);
      ConsoleError [label ("API Request Failed for " ++ verb ++ " "
                           ++ API_BASE_URL ++ endpoint ++ ":");
                    Value (JString message)];
      ConsoleError [label "Ocurrió un error en la operación principal:";
                    Value (JString message)]]).
Proof.
  intros Hreply. unfold try_catch, bind.
  rewrite apiRequest_run; cbv zeta. rewrite Hreply. reflexivity.
Qed.

(** A run issues no call, or it is one call of [apiRequest], for the path and
    the upper-cased command of the command line, followed by console output
    only. *)
Lemma run_shape rt argv :
  calls (run rt argv) = []
  \/ exists (command path : string) (payload : JSValue) (k : JSValue -> Prog unit),
       nth_error argv 2 = Some command
       /\ nth_error argv 3 = Some path
       /\ ((JSString.toUpperCase command = "GET" /\ payload = JNull)
           \/ (JSString.toUpperCase command = "DELETE" /\ payload = JNull)
           \/ (JSString.toUpperCase command = "POST"
               /\ exists properties, payload = JObject properties))
       /\ (forall v, fst (k v rt) = Normal tt /\ calls (snd (k v rt)) = [])
       /\ main argv rt
          = try_catch
              (bind (apiRequest ("/" ++ path) (JSString.toUpperCase command) payload) k)
              report_failure rt.
Proof.
  unfold run.
  destruct (Nat.lt_ge_cases (length argv) 4) as [Hshort|Hlong].
  { left. rewrite (main_short rt argv Hshort). reflexivity. }
  destruct argv as [|node [|script [|command [|path args]]]]; try (cbn in Hlong; lia).
  rewrite main_tokens.
  destruct ((command =? "") || (path =? "")); [left; reflexivity|].
  destruct (String.eqb_spec (JSString.toUpperCase command) "GET") as [Hg|Hg].
  { rewrite (dispatch_GET _ _ _ _ Hg). unfold main_GET.
    destruct ((path =? "products") && (length args =? 0)%nat).
    { right. exists command, path, JNull. eexists.
      split; [reflexivity|]. split; [reflexivity|].
      split; [left; split; [exact Hg | reflexivity]|].
      split; [|rewrite Hg; reflexivity].
      intros v. split; reflexivity. }
    destruct (JSString.startsWith path "products/"); [|left; reflexivity].
    right. exists command, path, JNull. eexists.
    split; [reflexivity|]. split; [reflexivity|].
    split; [left; split; [exact Hg | reflexivity]|].
    split; [|rewrite Hg; reflexivity].
    intros v. cbv beta.
    destruct args as [|fieldToExtract args]; [split; reflexivity|].
    destruct (truthy v && (typeof v =? "object")); cbn [andb];
      [destruct (js_in fieldToExtract v)|]; split; reflexivity. }
  destruct (String.eqb_spec (JSString.toUpperCase command) "POST") as [Hp|Hp].
  { rewrite (dispatch_POST _ _ _ _ Hp). unfold main_POST.
    destruct (path =? "products"); [|left; reflexivity].
    destruct (length args <? 3)%nat; [left; reflexivity|].
    destruct (JSNumber.isNaN _); [left; reflexivity|].
    right. exists command, path. eexists. eexists.
    split; [reflexivity|]. split; [reflexivity|].
    split; [right; right; split; [exact Hp | eexists; reflexivity]|].
    split; [|rewrite Hp; reflexivity].
    intros v. split; reflexivity. }
  destruct (String.eqb_spec (JSString.toUpperCase command) "DELETE") as [Hd|Hd].
  { rewrite (dispatch_DELETE _ _ _ _ Hd). unfold main_DELETE.
    destruct (JSString.startsWith path "products/"); [|left; reflexivity].
    destruct (invalid_id _); [left; reflexivity|].
    right. exists command, path, JNull. eexists.
    split; [reflexivity|]. split; [reflexivity|].
    split; [right; left; split; [exact Hd | reflexivity]|].
    split; [|rewrite Hd; reflexivity].
    intros v. split; reflexivity. }
  left. rewrite (dispatch_other _ _ _ _ Hg Hp Hd). reflexivity.
Qed.

(** Whatever the command line and the service, a call that a run issues is
    the first thing the run does and its only call; it goes to the fixed
    address followed by a slash and the path as typed, its method is the
    upper-cased command, one of GET, POST and DELETE (never PUT), and it
    carries a body exactly when it is a POST. *)
Theorem every_network_call_is_for_the_path :
  forall (rt : Runtime) (argv : list string) (call : HttpCall),
    In call (calls (run rt argv)) ->
    exists (command path : string) (log : list Event),
      nth_error argv 2 = Some command
      /\ nth_error argv 3 = Some path
      /\ run rt argv = NetworkCall call :: log
      /\ calls log = []
      /\ url call = "https://fakestoreapi.com/" ++ path
      /\ method (options call) = JSString.toUpperCase command
      /\ (method (options call) = "GET" \/ method (options call) = "POST"
          \/ method (options call) = "DELETE")
      /\ (is_Some (body (options call)) <-> method (options call) = "POST").
Proof.
  intros rt argv call Hcall.
  destruct (run_shape rt argv) as [Hnone|Hsome].
  { rewrite Hnone in Hcall. destruct Hcall. }
  destruct Hsome as (command & path & payload & k & Hcommand & Hpath & Hverb & Hk & Hmain).
  unfold run in *. rewrite Hmain in *.
  set (verb := JSString.toUpperCase command) in *.
  set (c := request rt ("/" ++ path) verb payload) in *.
  assert (Hrun : exists log,
            snd (try_catch (bind (apiRequest ("/" ++ path) verb payload) k)
                   report_failure rt) = NetworkCall c :: log
            /\ calls log = []).
  { destruct (read_reply (fetch rt c)) as [v|message] eqn:Hreply.
    - rewrite (try_catch_apiRequest_value _ _ _ _ _ _ Hreply (proj1 (Hk v))).
      eexists. split; [reflexivity | apply Hk].
    - rewrite (try_catch_apiRequest_failure _ _ _ _ _ _ Hreply).
      eexists. split; reflexivity. }
  destruct Hrun as (log & Hrun & Hlog). rewrite Hrun in Hcall.
  cbn [calls flat_map app] in Hcall. fold (calls log) in Hcall. rewrite Hlog in Hcall.
  destruct Hcall as [<- | []].
  exists command, path, log.
  split; [exact Hcommand|]. split; [exact Hpath|]. split; [exact Hrun|].
  split; [exact Hlog|]. split; [reflexivity|].
  assert (Hmethod : method (options c) = verb).
  { unfold c, request, request_options; cbn [options].
    destruct (truthy payload && _); reflexivity. }
  split; [exact Hmethod|]. rewrite Hmethod.
  split; [tauto|].
  unfold c, request, request_options; cbn [options].
  destruct Hverb as [[-> ->] | [[-> ->] | [-> [properties ->]]]]; cbn [body].
  - split; [intros [x Hx]; discriminate | discriminate].
  - split; [intros [x Hx]; discriminate | discriminate].
  - split; [reflexivity | eauto].
Qed.

Lemma every_network_call_is_for_the_path_witness :
  exists (command path : string) (log : list Event),
    nth_error ["node"; "index.js"; "delete"; "products/7"] 2 = Some command
    /\ nth_error ["node"; "index.js"; "delete"; "products/7"] 3 = Some path
    /\ run no_content_runtime ["node"; "index.js"; "delete"; "products/7"]
       = NetworkCall (plain_call "DELETE" "products/7") :: log
    /\ calls log = []
    /\ url (plain_call "DELETE" "products/7") = "https://fakestoreapi.com/" ++ path
    /\ method (options (plain_call "DELETE" "products/7")) = JSString.toUpperCase command
    /\ (method (options (plain_call "DELETE" "products/7")) = "GET"
        \/ method (options (plain_call "DELETE" "products/7")) = "POST"
        \/ method (options (plain_call "DELETE" "products/7")) = "DELETE")
    /\ (is_Some (body (options (plain_call "DELETE" "products/7")))
        <-> method (options (plain_call "DELETE" "products/7")) = "POST").
Proof.
  apply (every_network_call_is_for_the_path no_content_runtime
           ["node"; "index.js"; "delete"; "products/7"]
           (plain_call "DELETE" "products/7")).
  left. reflexivity.
Defined.



(** ** What the accepted commands print *)

Lemma apiRequest_value rt endpoint verb payload v :
  fst (apiRequest endpoint verb payload rt) = Normal v ->
  read_reply (fetch rt (request rt endpoint verb payload)) = Normal v.
Proof. intros H. rewrite <- apiRequest_result. exact H. Qed.

(** GET without a field prints what the request returned, unchanged, after
    the line that says whether it is the collection or one product. *)
Theorem GET_without_field_prints_the_reply :
  forall (rt : Runtime) (node script command path : string) (v : JSValue),
    JSString.toUpperCase command = "GET" ->
    fst (apiRequest ("/" ++ path) "GET" JNull rt) = Normal v ->
    let argv := [node; script; command; path] in
    (path = "products" ->
     run rt argv
     = [NetworkCall (plain_call "GET" "products");
        ConsoleLog [label "Productos obtenidos:"; Value v]])
    /\ (forall suffix : string,
          path = "products/" ++ suffix ->
          run rt argv
          = [NetworkCall (plain_call "GET" path);
             ConsoleLog [label "Producto obtenido:"; Value v]]).
Proof.
  intros rt node script command path v Hverb Hv argv.
  apply apiRequest_value in Hv. unfold argv. split.
  - intros ->. rewrite run_GET by (assumption || discriminate).
    unfold main_GET. cbn [String.eqb Ascii.eqb Bool.eqb length Nat.eqb andb].
    rewrite (try_catch_apiRequest_value _ _ _ _ _ _ Hv) by reflexivity. reflexivity.
  - intros suffix ->. rewrite run_GET by (assumption || discriminate).
    unfold main_GET.
    change ("products/" ++ suffix =? "products") with false.
    change (JSString.startsWith ("products/" ++ suffix) "products/") with true.
    cbn [andb].
    rewrite (try_catch_apiRequest_value _ _ _ _ _ _ Hv) by reflexivity. reflexivity.
Qed.

Lemma GET_without_field_prints_the_reply_witness :
  let argv := ["node"; "index.js"; "get"; "products/1"] in
  (("products/1" : string) = "products" ->
   run json_runtime argv
   = [NetworkCall (plain_call "GET" "products");
      ConsoleLog [label "Productos obtenidos:"; Value sample_product]])
  /\ (forall suffix : string,
        "products/1" = "products/" ++ suffix ->
        run json_runtime argv
        = [NetworkCall (plain_call "GET" "products/1");
           ConsoleLog [label "Producto obtenido:"; Value sample_product]]).
Proof.
  apply (GET_without_field_prints_the_reply json_runtime "node" "index.js" "get"
           "products/1" sample_product).
  - reflexivity.
  - reflexivity.
Defined.





(** POST, once the arguments are accepted and the request returned: the run
    prints the value that the request returned as the created product. *)
Theorem POST_prints_the_created_product :
  forall (rt : Runtime) (node script command title priceStr category : string)
         (rest : list string) (v : JSValue),
    JSString.toUpperCase command = "POST" ->
    JSNumber.isNaN (JSNumber.parseFloat priceStr) = false ->
    fst (apiRequest "/products" "POST"
           (newProduct title (JSNumber.parseFloat priceStr) category
              (nth_error rest 0) (nth_error rest 1)) rt) = Normal v ->
    exists call : HttpCall,
      run rt (node :: script :: command :: "products"
                   :: title :: priceStr :: category :: rest)
      = [NetworkCall call; ConsoleLog [label "Producto creado:"; Value v]].
Proof.
  intros rt node script command title priceStr category rest v Hverb Hprice Hv.
  apply apiRequest_value in Hv.
  rewrite run_POST by (assumption || discriminate).
  unfold main_POST.
  cbn [String.eqb Ascii.eqb Bool.eqb length Nat.ltb Nat.leb nth_error present].
  rewrite Hprice.
  change ("/" ++ "products") with "/products".
  rewrite (try_catch_apiRequest_value _ _ _ _ _ _ Hv) by reflexivity.
  eexists. reflexivity.
Qed.

Lemma POST_prints_the_created_product_witness :
  exists call : HttpCall,
    run json_runtime ["node"; "index.js"; "POST"; "products"; "T"; "9.99"; "cat"]
    = [NetworkCall call; ConsoleLog [label "Producto creado:"; Value sample_product]].
Proof.
  apply (POST_prints_the_created_product json_runtime "node" "index.js" "POST"
           "T" "9.99" "cat" [] sample_product).
  - reflexivity.
  - reflexivity.
  - reflexivity.
Defined.

(** ** What POST rejects before looking at the price *)

(** POST with a path other than products is an invalid route, whatever the
    arguments; POST products with fewer than three further arguments prints
    the two lines that ask for title, price and category, whatever those
    arguments are.  Neither issues a call. *)
Theorem POST_rejects_other_paths_and_short_argument_lists :
  forall (rt : Runtime) (node script command path : string) (args : list string),
    JSString.toUpperCase command = "POST" ->
    path <> "" ->
    let argv := node :: script :: command :: path :: args in
    (path <> "products" ->
     run rt argv
     = [ConsoleError [label ("Ruta no válida para POST: " ++ path ++ ". Use 'products'.")]])
    /\ (path = "products" ->
        (length args < 3)%nat ->
        run rt argv
        = [ConsoleError
             [label "Para POST products, se requieren al menos: <title> <price> <category>."];
           ConsoleError
             [label ("Ejemplo: npm run start POST products " ++ JSString.dq
                     ++ "Mi Producto" ++ JSString.dq ++ " 10.99 " ++ JSString.dq
                     ++ "electronica" ++ JSString.dq)]]).
Proof.
  intros rt node script command path args Hverb Hpath argv.
  unfold argv. rewrite run_POST by assumption. split.
  - intros Hother. rewrite main_POST_invalid_route by assumption. reflexivity.
  - intros -> Hlen. unfold main_POST.
    apply Nat.ltb_lt in Hlen. cbn [String.eqb Ascii.eqb Bool.eqb]. rewrite Hlen.
    reflexivity.
Qed.

Lemma POST_rejects_other_paths_and_short_argument_lists_witness :
  let argv := ["node"; "index.js"; "POST"; "products/1"; "T"; "9.99"; "cat"] in
  (("products/1" : string) <> "products" ->
   run json_runtime argv
   = [ConsoleError [label ("Ruta no válida para POST: " ++ "products/1"
                           ++ ". Use 'products'.")]])
  /\ (("products/1" : string) = "products" ->
      (length ["T"; "9.99"; "cat"] < 3)%nat ->
      run json_runtime argv
      = [ConsoleError
           [label "Para POST products, se requieren al menos: <title> <price> <category>."];
         ConsoleError
           [label ("Ejemplo: npm run start POST products " ++ JSString.dq
                   ++ "Mi Producto" ++ JSString.dq ++ " 10.99 " ++ JSString.dq
                   ++ "electronica" ++ JSString.dq)]]).
Proof.
  apply (POST_rejects_other_paths_and_short_argument_lists json_runtime "node"
           "index.js" "POST" "products/1" ["T"; "9.99"; "cat"]).
  - reflexivity.
  - discriminate.
Defined.

(** ** What the command line is not read for *)

(** The arguments that a command has no use for change nothing: GET reads
    one argument after the path, POST five, DELETE none. *)
Theorem surplus_arguments_are_ignored :
  forall (rt : Runtime) (node script command path : string),
    (JSString.toUpperCase command = "GET" ->
     forall (field : string) (more : list string),
       main (node :: script :: command :: path :: field :: more) rt
       = main [node; script; command; path; field] rt)
    /\ (JSString.toUpperCase command = "POST" ->
        forall (title priceStr category description image : string)
               (more : list string),
          main (node :: script :: command :: path
                     :: title :: priceStr :: category :: description :: image :: more) rt
          = main [node; script; command; path;
                  title; priceStr; category; description; image] rt)
    /\ (JSString.toUpperCase command = "DELETE" ->
        forall args : list string,
          main (node :: script :: command :: path :: args) rt
          = main [node; script; command; path] rt).
Proof.
  intros rt node script command path. split; [|split]; intros Hverb; intros.
  - rewrite !main_tokens. destruct ((command =? "") || (path =? "")); [reflexivity|].
    rewrite !dispatch_GET by assumption. unfold main_GET.
    cbn [length Nat.eqb]. rewrite !andb_false_r. reflexivity.
  - rewrite !main_tokens. destruct ((command =? "") || (path =? "")); [reflexivity|].
    rewrite !dispatch_POST by assumption. unfold main_POST.
    destruct (path =? "products"); reflexivity.
  - rewrite !main_tokens. destruct ((command =? "") || (path =? "")); [reflexivity|].
    rewrite !dispatch_DELETE by assumption. reflexivity.
Qed.

(** The command is matched without regard to case: a command whose
    upper-case form is GET, POST or DELETE runs exactly as that upper-case
    form does. *)
Theorem command_is_matched_in_upper_case :
  forall (rt : Runtime) (node script command : string) (rest : list string),
    JSString.toUpperCase command = "GET"
    \/ JSString.toUpperCase command = "POST"
    \/ JSString.toUpperCase command = "DELETE" ->
    main (node :: script :: command :: rest) rt
    = main (node :: script :: JSString.toUpperCase command :: rest) rt.
Proof.
  intros rt node script command rest Hverb.
  destruct rest as [|path args].
  { rewrite !main_short by (cbn; lia). reflexivity. }
  rewrite !main_tokens.
  assert (Hcommand : (command =? "") = false).
  { apply String.eqb_neq.
    destruct Hverb as [H | [H | H]];
      apply (toUpperCase_nonempty _ _ H); discriminate. }
  assert (Hupper : (JSString.toUpperCase command =? "") = false).
  { destruct Hverb as [-> | [-> | ->]]; reflexivity. }
  rewrite Hcommand, Hupper. cbn [orb].
  destruct (path =? ""); [reflexivity|].
  destruct Hverb as [H | [H | H]].
  - rewrite (dispatch_GET _ command _ _ H).
    rewrite (dispatch_GET _ (JSString.toUpperCase command)); [reflexivity|].
    rewrite H. reflexivity.
  - rewrite (dispatch_POST _ command _ _ H).
    rewrite (dispatch_POST _ (JSString.toUpperCase command)); [reflexivity|].
    rewrite H. reflexivity.
  - rewrite (dispatch_DELETE _ command _ _ H).
    rewrite (dispatch_DELETE _ (JSString.toUpperCase command)); [reflexivity|].
    rewrite H. reflexivity.
Qed.

Lemma command_is_matched_in_upper_case_witness :
  main ["node"; "index.js"; "delete"; "products/7"] no_content_runtime
  = main ["node"; "index.js"; JSString.toUpperCase "delete"; "products/7"]
      no_content_runtime.
Proof.
  apply (command_is_matched_in_upper_case no_content_runtime "node" "index.js"
           "delete" ["products/7"]).
  right. right. reflexivity.
Defined.

(** ** The run always ends normally *)

Lemma run_call_is_request rt argv call :
  In call (calls (run rt argv)) ->
  exists (endpoint verb : string) (payload : JSValue) (k : JSValue -> Prog unit),
    call = request rt endpoint verb payload
    /\ main argv rt
       = try_catch (bind (apiRequest endpoint verb payload) k) report_failure rt.
Proof.
  intros Hcall.
  destruct (run_shape rt argv) as [Hnone|Hsome].
  { rewrite Hnone in Hcall. destruct Hcall. }
  destruct Hsome as (command & path & payload & k & _ & _ & _ & Hk & Hmain).
  exists ("/" ++ path), (JSString.toUpperCase command), payload, k.
  split; [|exact Hmain].
  unfold run in Hcall. rewrite Hmain in Hcall.
  destruct (read_reply (fetch rt (request rt ("/" ++ path)
                                    (JSString.toUpperCase command) payload)))
    as [v|m] eqn:Hr.
  - rewrite (try_catch_apiRequest_value _ _ _ _ _ _ Hr (proj1 (Hk v))) in Hcall.
    cbn [snd calls flat_map app] in Hcall. fold (calls (snd (k v rt))) in Hcall.
    rewrite (proj2 (Hk v)) in Hcall. destruct Hcall as [<- | []]. reflexivity.
  - rewrite (try_catch_apiRequest_failure _ _ _ _ _ _ Hr) in Hcall.
    destruct Hcall as [<- | []]. reflexivity.
Qed.

(** Whatever the arguments and whatever the service does, [main] ends
    normally; when the call of the run fails, the failure does not escape
    but is reported: the error line of [main], carrying the message of the
    failure, is on the console. *)
Theorem main_ends_normally :
  forall (rt : Runtime) (argv : list string),
    fst (main argv rt) = Normal tt
    /\ forall (call : HttpCall) (message : string),
         In call (calls (run rt argv)) ->
         read_reply (fetch rt call) = Throw message ->
         In (ConsoleError [label "Ocurrió un error en la operación principal:";
                           Value (JString message)])
            (run rt argv).
Proof.
  intros rt argv. split.
  - unfold main.
    destruct (missing (nth_error argv 2) || missing (nth_error argv 3));
      [reflexivity|].
    apply try_catch_report_failure.
  - intros call message Hcall Hreply.
    destruct (run_call_is_request rt argv call Hcall)
      as (endpoint & verb & payload & k & -> & Hmain).
    unfold run. rewrite Hmain.
    rewrite (try_catch_apiRequest_failure _ _ _ _ _ _ Hreply). cbn [snd].
    right. right. left. reflexivity.
Qed.
